(** * rats_fmri: the BIDS conversion script [raw/bids.py]

    A shallow embedding of [clean_id], [setup_bids] and [convert_dataset],
    and the properties of the TR-based classification, of the metadata
    lookup and of the file effects of one conversion pass.

    Modelling choices, all of them visible in the definitions below:
    - a Python float is an IEEE 754 binary64 number ([num], the
      [spec_float] of the Standard Library at precision 53): subtraction
      rounds to the nearest double, ties to even, and [abs] and [<] are
      those of the standard, with infinities and NaN;
    - a [str] is a Rocq [string] with one character per code point, so the
      model covers the texts whose code points are all below U+0100;
      [lower] and [isspace] are [str.lower] and [str.isspace] on these;
    - a path is the list of its components below the root, so that
      [os.path.join] is list append;
    - the disk is a finite map from paths to file contents (directories are
      implicit); everything the script prints or asks of the operating
      system is appended to a trace;
    - an uncaught Python exception ends the run with [Raised]. *)

From Stdlib Require Import Ascii String ZArith QArith Qabs SpecFloat.
From stdpp Require Import gmap strings list fin_maps.

Set Default Proof Using "Type".
Local Open Scope string_scope.
Local Open Scope list_scope.

(** ** Numbers *)

(** A Python float as the script sees it.  The values Python computes with
    are the ones [valid_binary 53 1024] accepts; the operations below are
    those of the Standard Library, defined on every [spec_float]. *)
Abbreviation num := spec_float.

Definition NaN : num := S754_nan.

(** [a - b] *)
Definition num_sub (a b : num) : num := SFsub 53 1024 a b.

(** [abs(a)] *)
Definition num_abs (a : num) : num := SFabs a.

(** [a < b]: every comparison with NaN is [False]. *)
Definition num_lt (a b : num) : bool := SFltb a b.

(** The double Python takes for a decimal literal, for the decimal text of
    a number in a workbook or a JSON file, and for an integer: the double
    nearest to the rational [q], ties to even, and an infinity where a
    decimal text is beyond the largest double (an integer of that size,
    which Python refuses to convert, is outside the model). *)
Definition float_of (q : Q) : num :=
  match Qnum q with
  | Z0 => S754_zero false
  | Zpos n => SFdiv 53 1024 (S754_finite false n 0) (S754_finite false (Qden q) 0)
  | Zneg n => SFdiv 53 1024 (S754_finite true n 0) (S754_finite false (Qden q) 0)
  end.

(** ** Configuration (lines 10-21) *)

Abbreviation path := (list string).

Definition DATA_ROOT : path :=
  ["neurospin"; "micromri"; "Georges"; "rats_white_matter"; "data";
   "ratsvisualstimulation"].

Definition EXCEL_PATH : path := DATA_ROOT ++ ["VisRat_metadata_NeuroSpin.xlsx"].

Definition BIDS_ROOT : path :=
  ["neurospin"; "micromri"; "Georges"; "rats_white_matter"; "data";
   "bids_output"].

(** Line 21: the literal [0.05]. *)
Definition TR_TOLERANCE : num := float_of (5 # 100).

(** ** Strings *)

(** [c.lower()] of one character below U+0100: the letters [A] to [Z] and
    the accented capitals U+00C0 to U+00DE, the sign U+00D7 apart, have
    their lower-case form 32 places up; every other character is kept. *)
Definition ascii_lower (c : ascii) : ascii :=
  let n := Ascii.N_of_ascii c in
  if (((65 <=? n) && (n <=? 90))
      || ((192 <=? n) && (n <=? 222) && negb (n =? 215)))%N
  then Ascii.ascii_of_N (n + 32) else c.

(** The characters of a string. *)
Fixpoint chars (s : string) : list ascii :=
  match s with
  | EmptyString => []
  | String c s' => c :: chars s'
  end.

(** [s.lower()]: character by character on these texts. *)
Fixpoint lower (s : string) : string :=
  match s with
  | EmptyString => EmptyString
  | String c s' => String (ascii_lower c) (lower s')
  end.

(** [c.isspace()], the characters [str.strip] removes: tab to carriage
    return, the four separators 28 to 31, the space, and below U+0100 also
    U+0085 and U+00A0. *)
Definition isspace (c : ascii) : bool :=
  let n := Ascii.N_of_ascii c in
  (((9 <=? n) && (n <=? 13)) || ((28 <=? n) && (n <=? 32))
   || (n =? 133) || (n =? 160))%N.

Fixpoint lstrip (s : string) : string :=
  match s with
  | EmptyString => EmptyString
  | String c s' => if isspace c then lstrip s' else s
  end.

Fixpoint rstrip (s : string) : string :=
  match s with
  | EmptyString => EmptyString
  | String c s' =>
      match rstrip s' with
      | EmptyString => if isspace c then EmptyString else String c EmptyString
      | r => String c r
      end
  end.

(** [s.strip()] *)
Definition strip (s : string) : string := rstrip (lstrip s).

(** [s.replace(old, new)] for a non-empty [old], as at both call sites:
    the occurrences of [old] are replaced from left to right, without
    overlap.  [skip] counts the characters of a match still to be dropped. *)
Fixpoint replace_from (old new : string) (skip : nat) (s : string) : string :=
  match s with
  | EmptyString => EmptyString
  | String c s' =>
      match skip with
      | S k => replace_from old new k s'
      | O =>
          if String.prefix old s
          then new +:+ replace_from old new (String.length old - 1) s'
          else String c (replace_from old new 0 s')
      end
  end.

Definition replace (old new s : string) : string := replace_from old new 0 s.

(** [s.startswith(p)] and [s.endswith(p)] *)
Definition startswith (p s : string) : bool := String.prefix p s.

Fixpoint endswith (p s : string) : bool :=
  if decide (s = p) then true
  else match s with
       | EmptyString => false
       | String _ s' => endswith p s'
       end.

(** ** The metadata sheet *)

(** The value of a [rat.ID] cell: a str, or the NaN pandas puts in a blank
    cell. *)
Inductive id_cell : Type :=
  | IdText (s : string)
  | IdMissing.

(** The value of a timing cell: a number, given by the exact value [q] of
    its decimal text in the workbook (the script computes with the double
    nearest to it), the NaN of a blank cell, or a str.  Cells of another
    kind, a date for one, are outside the model. *)
Inductive cell : Type :=
  | Num (q : Q)
  | Missing
  | Text (s : string).

(** One row of the sheet as [pd.read_excel] returns it; [rat_gender] is
    [None] where the cell is blank. *)
Record sheet_row : Type := SheetRow {
  rat_ID : id_cell;
  anat_TR : cell;
  func_TR : cell;
  rat_gender : option string
}.

(** The sheet: whether it has a [rat.gender] column, and its rows from top
    to bottom. *)
Record sheet : Type := Sheet {
  has_gender : bool;
  sheet_rows : list sheet_row
}.

(** [str(val)] of an identifier cell. *)
Definition py_str (v : id_cell) : string :=
  match v with
  | IdText s => s
  | IdMissing => "nan"
  end.

(** Lines 36-38. *)
Definition clean_id (val : id_cell) : string :=
  replace " " "" (strip (lower (py_str val))).

Definition is_missing (c : cell) : bool :=
  match c with
  | Missing => true
  | _ => false
  end.

(** [Series.ffill()]: a missing cell takes the last value seen above it,
    and stays missing when there is none. *)
Fixpoint ffill_from (prev : cell) (col : list cell) : list cell :=
  match col with
  | [] => []
  | c :: col' =>
      let v := if is_missing c then prev else c in
      v :: ffill_from v col'
  end.

Definition ffill (col : list cell) : list cell := ffill_from Missing col.

(** A row of [df] once lines 47 and 51 have run: the timing columns filled
    down and the [clean_id] column added. *)
Record df_row : Type := DfRow {
  df_rat_ID : id_cell;
  df_anat_TR : cell;
  df_func_TR : cell;
  df_rat_gender : option string;
  df_clean_id : string
}.

Definition zip_rows (rs : list sheet_row) (anat func : list cell) : list df_row :=
  zip_with (λ r tr,
    DfRow (rat_ID r) tr.1 tr.2 (rat_gender r) (clean_id (rat_ID r)))
    rs (zip anat func).

(** Lines 47-51. *)
Definition prepare (rs : list sheet_row) : list df_row :=
  zip_rows rs (ffill (anat_TR <$> rs)) (ffill (func_TR <$> rs)).

(** *** [float()] of a str

    [float] strips the white space at both ends, drops the underscores
    that stand between two digits, and then reads a sign followed by a
    decimal number or by one of the words [inf], [infinity] and [nan] in
    any case; the whole text has to be used up. *)

(** The white space [float] strips: of the characters of [isspace], not
    the separators 28 to 31. *)
Definition float_space (c : ascii) : bool :=
  let n := Ascii.N_of_ascii c in
  (((9 <=? n) && (n <=? 13)) || (n =? 32) || (n =? 133) || (n =? 160))%N.

Fixpoint drop_float_space (l : list ascii) : list ascii :=
  match l with
  | [] => []
  | c :: l' => if float_space c then drop_float_space l' else l
  end.

Definition float_strip (l : list ascii) : list ascii :=
  rev (drop_float_space (rev (drop_float_space l))).

Definition is_digit (c : ascii) : bool :=
  let n := Ascii.N_of_ascii c in ((48 <=? n) && (n <=? 57))%N.

(** An underscore is allowed after a digit and before a digit only;
    [prev] is the character before [l]. *)
Fixpoint drop_underscores (prev : ascii) (l : list ascii) : option (list ascii) :=
  match l with
  | [] => if bool_decide (prev = "_"%char) then None else Some []
  | c :: l' =>
      if bool_decide (c = "_"%char)
      then (if is_digit prev then drop_underscores c l' else None)
      else if bool_decide (prev = "_"%char) && negb (is_digit c) then None
      else cons c <$> drop_underscores c l'
  end.

Definition take_sign (l : list ascii) : bool * list ascii :=
  match l with
  | c :: l' =>
      if bool_decide (c = "-"%char) then (true, l')
      else if bool_decide (c = "+"%char) then (false, l')
      else (false, l)
  | [] => (false, [])
  end.

(** The digits [l] starts with, and the rest of [l]. *)
Fixpoint take_digits (l : list ascii) : list ascii * list ascii :=
  match l with
  | c :: l' =>
      if is_digit c then let '(ds, r) := take_digits l' in (c :: ds, r) else ([], l)
  | [] => ([], [])
  end.

Definition digits_value (ds : list ascii) : Z :=
  foldl (λ n c, 10 * n + (Z.of_N (Ascii.N_of_ascii c) - 48))%Z 0%Z ds.

(** The exponent part: nothing, or [e] or [E], a sign and at least one
    digit, up to the end of the text. *)
Definition parse_exponent (l : list ascii) : option Z :=
  match l with
  | [] => Some 0%Z
  | c :: l' =>
      if bool_decide (c = "e"%char) || bool_decide (c = "E"%char)
      then let '(neg, l1) := take_sign l' in
           match take_digits l1 with
           | ((_ :: _) as ds, []) =>
               Some (if neg then - digits_value ds else digits_value ds)%Z
           | _ => None
           end
      else None
  end.

(** [m * 10 ^ k] *)
Definition scale10 (m k : Z) : Q :=
  if (0 <=? k)%Z then inject_Z (m * 10 ^ k) else Qmake m (Z.to_pos (10 ^ (- k))).

(** An unsigned decimal number: digits, a point and digits, with at least
    one digit in all, and an exponent part. *)
Definition parse_decimal (l : list ascii) : option Q :=
  let '(ip, r1) := take_digits l in
  let '(fp, r2) :=
    match r1 with
    | c :: r1' => if bool_decide (c = "."%char) then take_digits r1' else ([], r1)
    | [] => ([], [])
    end in
  match ip ++ fp with
  | [] => None
  | ds =>
      e ← parse_exponent r2;
      Some (scale10 (digits_value ds) (e - Z.of_nat (length fp)))
  end.

(** [float(s)] for a str ([None] where it raises [ValueError]). *)
Definition float_of_str (s : string) : option num :=
  l ← drop_underscores "000"%char (float_strip (chars s));
  let '(neg, l1) := take_sign l in
  match parse_decimal l1 with
  | Some q => Some (if neg then SFopp (float_of q) else float_of q)
  | None =>
      let word := string_of_list_ascii (ascii_lower <$> l1) in
      if bool_decide (word = "inf") || bool_decide (word = "infinity")
      then Some (S754_infinity neg)
      else if bool_decide (word = "nan") then Some NaN
      else None
  end.

(** [float(v)] of a cell ([None] where it raises): a number converts to its
    double, NaN converts to NaN without an error, and a str converts when
    it spells a number. *)
Definition py_float (c : cell) : option num :=
  match c with
  | Num q => Some (float_of q)
  | Missing => Some NaN
  | Text s => float_of_str s
  end.

(** What lines 77-91 find for a subject directory. *)
Inductive targets : Type :=
  | NotInExcel
  | BadTR
  | Targets (anat_tr_target func_tr_target : num).

(** Lines 85-91 on one row: both conversions, or the [except] branch. *)
Definition row_targets (r : df_row) : targets :=
  match py_float (df_anat_TR r), py_float (df_func_TR r) with
  | Some a, Some f => Targets a f
  | _, _ => BadTR
  end.

(** Line 77: [df[df['clean_id'] == clean_sub_name]]. *)
Definition matching_rows (df : list df_row) (clean_sub_name : string) : list df_row :=
  filter (λ r, df_clean_id r = clean_sub_name) df.

(** Lines 77-91: the rows of the subject, and [.values[0]] of each timing
    column. *)
Definition subject_targets (df : list df_row) (clean_sub_name : string) : targets :=
  match matching_rows df clean_sub_name with
  | [] => NotInExcel
  | r :: _ => row_targets r
  end.

(** ** Classification (lines 122-143) *)

Inductive verdict : Type :=
  | Functional
  | Anatomical
  | Unclassified.

(** [abs(actual_tr - target) < tol], each step in doubles. *)
Definition within (tol : num) (actual_tr target : num) : bool :=
  num_lt (num_abs (num_sub actual_tr target)) tol.

(** Lines 123 and 136: the functional test, then the anatomical one. *)
Definition classify (tol : num) (actual_tr func_tr_target anat_tr_target : num) : verdict :=
  if within tol actual_tr func_tr_target then Functional
  else if within tol actual_tr anat_tr_target then Anatomical
  else Unclassified.

(** ** JSON documents and file contents *)

(** A value as [json.load] returns it; an object is the list of its
    members in insertion order, as a Python dict keeps them.  A number is
    held as the double it is in the subtraction of line 123 (an integer
    stays an integer in Python until then, and is converted there). *)
#[local] Set Warnings "-register-all".
Inductive json : Type :=
  | JNull
  | JBool (b : bool)
  | JNum (x : num)
  | JStr (s : string)
  | JArr (l : list json)
  | JObj (d : list (string * json)).

(** [d.get(k)] *)
Fixpoint dict_get (k : string) (d : list (string * json)) : option json :=
  match d with
  | [] => None
  | (k', v') :: d' => if decide (k' = k) then Some v' else dict_get k d'
  end.

(** [d[k] = v]: an existing key keeps its place, a new key goes last. *)
Fixpoint dict_set (k : string) (v : json) (d : list (string * json)) : list (string * json) :=
  match d with
  | [] => [(k, v)]
  | (k', v') :: d' =>
      if decide (k' = k) then (k, v) :: d' else (k', v') :: dict_set k v d'
  end.

(** What a file holds: a JSON text, a tab-separated table, or anything else
    (an image, a text that [json.load] rejects), told apart by [tag]. *)
Inductive content : Type :=
  | Json (j : json)
  | Tsv (header : list string) (rows : list (list string))
  | Blob (tag : N).

(** The number Python computes with for a JSON value: a bool is an int,
    and no other value subtracts from a float. *)
Definition as_number (j : json) : option num :=
  match j with
  | JNum x => Some x
  | JBool b => Some (float_of (if b then 1 else 0))
  | _ => None
  end.

(** ** The world: files, trace, exceptions *)

(** The lines the script prints. *)
Inductive message : Type :=
  | MsgExcelError
  | MsgProcessing (sub_dir clean_sub_name : string)
  | MsgNotInExcel (clean_sub_name : string)
  | MsgTargets (anat_tr_target func_tr_target : num)
  | MsgTRError (clean_sub_name : string)
  | MsgNoNifti
  | MsgConverted (dest_folder new_name : string)
  | MsgFinished.

(** What the script does to the outside, in the order it does it:
    [Makedirs p] stands for a call of [os.makedirs] that makes sure the
    directory [p] is there, [Open p mode] for [open(p, mode)], [Run] for
    the [subprocess.run] of line 99. *)
Inductive event : Type :=
  | Printed (m : message)
  | Makedirs (p : path)
  | Open (p : path) (mode : string)
  | Run (tool : string) (out_dir in_dir : path)
  | Move (src dst : path)
  | Rmtree (p : path).

(** The exceptions the modelled statements raise. *)
Inductive exn : Type :=
  | FileNotFoundError
  | JSONDecodeError
  | AttributeError
  | TypeError.

Record world : Type := World {
  files : gmap path content;
  trace : list event
}.

Inductive outcome (A : Type) : Type :=
  | Done (a : A) (w : world)
  | Raised (e : exn) (w : world).
Arguments Done {A} a w.
Arguments Raised {A} e w.

(** A statement of the script: it runs in a world and either completes or
    raises, in the world it has reached. *)
Definition M (A : Type) : Type := world → outcome A.

#[global] Instance M_ret : MRet M := λ A a w, Done a w.

#[global] Instance M_bind : MBind M := λ A B k m w,
  match m w with
  | Done a w' => k a w'
  | Raised e w' => Raised e w'
  end.

Definition raise {A} (e : exn) : M A := λ w, Raised e w.

(** [try: m  except: h] *)
Definition try_except {A} (m h : M A) : M A := λ w,
  match m w with
  | Done a w' => Done a w'
  | Raised _ w' => h w'
  end.

(** The world a statement leaves behind, whether it completed or raised. *)
Definition world_of {A} (o : outcome A) : world :=
  match o with
  | Done _ w => w
  | Raised _ w => w
  end.

Definition emit (e : event) : M unit := λ w,
  Done tt (World (files w) (trace w ++ [e])).

Definition modify_files (f : gmap path content → gmap path content) : M unit := λ w,
  Done tt (World (f (files w)) (trace w)).

(** [for x in xs: body] *)
Fixpoint for_each {A} (body : A → M unit) (xs : list A) : M unit :=
  match xs with
  | [] => mret tt
  | x :: xs' => body x;; for_each body xs'
  end.

(** [os.path.exists(p)], for files. *)
Definition path_exists (p : path) : M bool := λ w,
  Done (bool_decide (is_Some (files w !! p))) w.

(** The whole content of an existing file. *)
Definition read_file (p : path) : M content := λ w,
  match files w !! p with
  | Some c => Done c w
  | None => Raised FileNotFoundError w
  end.

(** [open(p, mode)] for reading, and [f.read()]. *)
Definition open_read (p : path) (mode : string) : M content :=
  emit (Open p mode);; read_file p.

(** [open(p, 'w')] and the content written. *)
Definition write_file (p : path) (c : content) : M unit :=
  emit (Open p "w");; modify_files (insert p c).

(** [json.load(f)] *)
Definition json_load (c : content) : M json :=
  match c with
  | Json j => mret j
  | _ => raise JSONDecodeError
  end.

(** [data.get(k, default)]: only a dict has [get]. *)
Definition data_get (data : json) (k : string) (dflt : json) : M json :=
  match data with
  | JObj d => mret (default dflt (dict_get k d))
  | _ => raise AttributeError
  end.

(** [shutil.move(src, dst)] of a file. *)
Definition shutil_move (src dst : path) : M unit :=
  emit (Move src dst);;
  c ← read_file src;
  modify_files (λ fs, <[dst := c]> (delete src fs)).

(** [shutil.rmtree(p)]: every file below [p] goes. *)
Definition shutil_rmtree (p : path) : M unit :=
  emit (Rmtree p);;
  modify_files (filter (λ kv, ¬ p `prefix_of` kv.1)).

(** [below dir p] is the rest of [p] under [dir], when [p] is there. *)
Fixpoint below (dir p : path) : option path :=
  match dir, p with
  | [], _ => Some p
  | d :: dir', c :: p' => if decide (d = c) then below dir' p' else None
  | _ :: _, [] => None
  end.

(** [glob.glob(os.path.join(dir, "*.json"))]: the files directly in [dir]
    whose name ends in [.json] and does not start with a dot.  [dir] itself
    is read literally, which is what glob does when no component of [dir]
    holds one of the characters [*], [?] and [[]; a subject directory with
    such a character in its name, which glob would read as a pattern, is
    outside the model.  glob promises no order; the model lists the files
    in the order of the map. *)
Definition is_json_in (dir p : path) : bool :=
  match below dir p with
  | Some [name] => endswith ".json" name && negb (startswith "." name)
  | _ => false
  end.

Definition glob_json (dir : path) : M (list path) := λ w,
  Done (filter (λ p, is_json_in dir p = true) (map_to_list (files w)).*1) w.

(** ** The script *)

(** What the script is given from outside: the result of [pd.read_excel]
    and of the column accesses of lines 43-51 ([None] when any of them
    raises), the entries of [DATA_ROOT] with [os.path.isdir] of each, and
    the effect of one dcm2niix run on the files. *)
Record env : Type := Env {
  read_excel : option sheet;
  listdir : list (string * bool);
  dcm2niix : path → path → gmap path content → gmap path content
}.

Definition desc : json :=
  JObj [("Name", JStr "Rat Visual Stimulation Dataset");
        ("BIDSVersion", JStr "1.8.0");
        ("DatasetType", JStr "raw");
        ("Authors", JArr [JStr "NeuroSpin Team"])].

(** Lines 23-34.  Directories are not part of the state: [os.makedirs],
    here under the test of line 24 and further down with [exist_ok], shows
    in the trace only. *)
Definition setup_bids : M unit :=
  emit (Makedirs BIDS_ROOT);;
  write_file (BIDS_ROOT ++ ["dataset_description.json"]) (Json desc).

(** Lines 59-65: the table written to participants.tsv. *)
Definition participants (with_sex : bool) (df : list df_row) : content :=
  Tsv ("participant_id" :: (if with_sex then ["sex"] else []))
      ((λ r, ("sub-" +:+ df_clean_id r)
             :: (if with_sex then [default "n/a" (df_rat_gender r)] else []))
       <$> df).

(** Line 68. *)
Definition subject_dirs (entries : list (string * bool)) : list string :=
  (filter (λ e, e.2 = true ∧ startswith "rat" (lower e.1) = true) entries).*1.

(** Lines 126 and 138: the two values of [new_name]. *)
Definition bold_name (clean_sub_name : string) : string :=
  "sub-" +:+ clean_sub_name +:+ "_ses-01_task-visual_bold".

Definition T2w_name (clean_sub_name : string) : string :=
  "sub-" +:+ clean_sub_name +:+ "_ses-01_T2w".

(** Line 108. *)
Definition nii_of (json_file : path) : path :=
  replace ".json" ".nii.gz" <$> json_file.

(** Lines 111-117. *)
Definition read_actual_tr (json_file : path) : M json :=
  try_except
    (c ← open_read json_file "r";
     data ← json_load c;
     data_get data "RepetitionTime" (JNum (float_of (-1))))
    (mret (JNum (float_of (-1)))).

(** Line 131: [jdata['TaskName'] = "visual"]. *)
Definition augment (jdata : list (string * json)) : list (string * json) :=
  dict_set "TaskName" (JStr "visual") jdata.

(** Lines 129-134: the sidecar is read, changed and written back through
    one file handle. *)
Definition add_task_name (json_file : path) : M unit :=
  c ← open_read json_file "r+";
  jdata ← json_load c;
  match jdata with
  | JObj d => modify_files (insert json_file (Json (JObj (augment d))))
  | _ => raise TypeError
  end.

(** Line 146. *)
Definition final_dir (clean_sub_name dest_folder : string) : path :=
  BIDS_ROOT ++ ["sub-" +:+ clean_sub_name; "ses-01"; dest_folder].

(** Lines 145-151. *)
Definition relocate (clean_sub_name dest_folder new_name : string)
    (nii_file json_file : path) : M unit :=
  emit (Makedirs (final_dir clean_sub_name dest_folder));;
  shutil_move nii_file (final_dir clean_sub_name dest_folder ++ [new_name +:+ ".nii.gz"]);;
  shutil_move json_file (final_dir clean_sub_name dest_folder ++ [new_name +:+ ".json"]);;
  emit (Printed (MsgConverted dest_folder new_name)).

(** Lines 107-151, the body of the loop over the sidecars of one subject.
    The two comparisons of lines 123 and 136 are [classify]; the
    subtraction raises first when the sidecar's value is not a number. *)
Definition process_scan (clean_sub_name : string) (anat_tr_target func_tr_target : num)
    (json_file : path) : M unit :=
  let nii_file := nii_of json_file in
  found ← path_exists nii_file;
  if negb found then mret tt else
  tr ← read_actual_tr json_file;
  match as_number tr with
  | None => raise TypeError
  | Some actual_tr =>
      match classify TR_TOLERANCE actual_tr func_tr_target anat_tr_target with
      | Functional =>
          add_task_name json_file;;
          relocate clean_sub_name "func" (bold_name clean_sub_name) nii_file json_file
      | Anatomical =>
          relocate clean_sub_name "anat" (T2w_name clean_sub_name) nii_file json_file
      | Unclassified => mret tt
      end
  end.

(** Lines 97-99: the tool is run to its end, whatever its exit status. *)
Definition run_dcm2niix (e : env) (out_dir in_dir : path) : M unit :=
  emit (Run "dcm2niix" out_dir in_dir);;
  modify_files (dcm2niix e out_dir in_dir).

Definition temp_out (sub_dir : string) : path := DATA_ROOT ++ [sub_dir; "temp_bids"].

(** Lines 93-153, for a subject whose targets were found. *)
Definition convert_subject (e : env) (sub_dir clean_sub_name : string)
    (anat_tr_target func_tr_target : num) : M unit :=
  emit (Makedirs (temp_out sub_dir));;
  run_dcm2niix e (temp_out sub_dir) (DATA_ROOT ++ [sub_dir]);;
  json_files ← glob_json (temp_out sub_dir);
  (if bool_decide (json_files = []) then emit (Printed MsgNoNifti) else mret tt);;
  for_each (process_scan clean_sub_name anat_tr_target func_tr_target) json_files;;
  shutil_rmtree (temp_out sub_dir).

(** Lines 70-153, the body of the loop over the subject directories. *)
Definition process_subject (e : env) (df : list df_row) (sub_dir : string) : M unit :=
  let clean_sub_name := clean_id (IdText sub_dir) in
  emit (Printed (MsgProcessing sub_dir clean_sub_name));;
  match subject_targets df clean_sub_name with
  | NotInExcel => emit (Printed (MsgNotInExcel clean_sub_name))
  | BadTR => emit (Printed (MsgTRError clean_sub_name))
  | Targets anat_tr_target func_tr_target =>
      emit (Printed (MsgTargets anat_tr_target func_tr_target));;
      convert_subject e sub_dir clean_sub_name anat_tr_target func_tr_target
  end.

(** Lines 40-153.  [pd.read_excel] opens the workbook for reading, whether
    or not it can make a table of it. *)
Definition convert_dataset (e : env) : M unit :=
  emit (Open EXCEL_PATH "rb");;
  match read_excel e with
  | None => emit (Printed MsgExcelError)
  | Some sh =>
      let df := prepare (sheet_rows sh) in
      setup_bids;;
      write_file (BIDS_ROOT ++ ["participants.tsv"]) (participants (has_gender sh) df);;
      for_each (process_subject e df) (subject_dirs (listdir e))
  end.

(** Lines 155-157. *)
Definition main (e : env) : M unit :=
  convert_dataset e;;
  emit (Printed MsgFinished).

(** ** Definitions used to state the properties *)

(** Where a functional and an anatomical scan of a subject end up. *)
Definition func_nii (clean_sub_name : string) : path :=
  final_dir clean_sub_name "func" ++ [bold_name clean_sub_name +:+ ".nii.gz"].

Definition func_json (clean_sub_name : string) : path :=
  final_dir clean_sub_name "func" ++ [bold_name clean_sub_name +:+ ".json"].

Definition anat_nii (clean_sub_name : string) : path :=
  final_dir clean_sub_name "anat" ++ [T2w_name clean_sub_name +:+ ".nii.gz"].

Definition anat_json (clean_sub_name : string) : path :=
  final_dir clean_sub_name "anat" ++ [T2w_name clean_sub_name +:+ ".json"].

(** The tab-separated rows of a file, header apart. *)
Definition tsv_rows (c : content) : list (list string) :=
  match c with
  | Tsv _ rows => rows
  | _ => []
  end.

(** What participants.tsv holds once [convert_dataset] has stopped. *)
Definition participants_written (e : env) (w : world) : option content :=
  files (world_of (convert_dataset e w)) !! (BIDS_ROOT ++ ["participants.tsv"]).

(** The contract of the conversion tool: it writes below its output
    directory and nowhere else. *)
Definition tool_confined (e : env) : Prop :=
  ∀ out_dir in_dir fs p,
    ¬ out_dir `prefix_of` p → dcm2niix e out_dir in_dir fs !! p = fs !! p.

(** The real number a finite double stands for. *)
Definition exact_value (x : num) : option Q :=
  match x with
  | S754_zero _ => Some 0%Q
  | S754_finite s m e =>
      Some ((if s then -1 else 1) * inject_Z (Zpos m) * Qpower 2 e)%Q
  | _ => None
  end.

(** [|x - y| < tol] for the real numbers three doubles stand for. *)
Definition exactly_within (tol x y : num) : Prop :=
  match exact_value tol, exact_value x, exact_value y with
  | Some t, Some a, Some b => (Qabs (a - b) < t)%Q
  | _, _, _ => False
  end.

(** The reconciled mapping in the words of the specification (section 4.2):
    the timing columns are filled down, every row gets its normalized key,
    a later row with the same key overwrites an earlier one, and a row
    without two numeric timing values is left out. *)
Definition spec_reconcile (rs : list sheet_row) : gmap string (Q * Q) :=
  foldl (λ m r,
    match df_anat_TR r, df_func_TR r with
    | Num a, Num f => <[df_clean_id r := (a, f)]> m
    | _, _ => m
    end) ∅ (prepare rs).

(** Whether an event opens, moves or removes the file [p]; what the
    conversion tool reads during a [Run] is not an event of the script. *)
Definition touches (p : path) (ev : event) : bool :=
  match ev with
  | Open q _ => bool_decide (q = p)
  | Move src dst => bool_decide (src = p) || bool_decide (dst = p)
  | Rmtree q => bool_decide (q `prefix_of` p)
  | _ => false
  end.

(** A statement leaves the file [p] alone: whatever the world, and whether
    it completes or raises, [p] holds what it held and no event of the
    statement touches it. *)
Definition leaves_alone {A} (p : path) (m : M A) : Prop :=
  ∀ w,
    files (world_of (m w)) !! p = files w !! p
    ∧ ∃ new, trace (world_of (m w)) = trace w ++ new
             ∧ Forall (λ ev, touches p ev = false) new.

(** Whether a dot occurs in [s]. *)
Fixpoint has_dot (s : string) : bool :=
  match s with
  | EmptyString => false
  | String c s' => if decide (c = "."%char) then true else has_dot s'
  end.

(** A tool run that leaves the files as they are. *)
Definition no_output : path → path → gmap path content → gmap path content :=
  λ _ _ fs, fs.

(** A tool run that produces one series with a repetition time of 1 s. *)
Definition one_series : path → path → gmap path content → gmap path content :=
  λ out_dir _ fs,
    <[out_dir ++ ["3_T2.json"] := Json (JObj [("RepetitionTime", JNum (float_of 1))])]>
      (<[out_dir ++ ["3_T2.nii.gz"] := Blob 1]> fs).

Definition empty_world : world := World ∅ [].

(** A sheet whose only row has blank timing cells, and its directory. *)
Definition blank_tr_rows : list sheet_row :=
  [SheetRow (IdText "rat1") Missing Missing None].

Definition blank_tr_env : env :=
  Env (Some (Sheet false blank_tr_rows)) [("rat1", true)] one_series.

(** A sheet that names the same subject twice. *)
Definition twice_rows : list sheet_row :=
  [SheetRow (IdText "rat1") (Num 1) (Num 2) None;
   SheetRow (IdText "Rat 1") (Num 3) (Num 4) None].

Definition twice_env : env :=
  Env (Some (Sheet false twice_rows)) [] no_output.

(** A sheet with a blank identifier, and a directory called [nan]. *)
Definition blank_id_rows : list sheet_row :=
  [SheetRow IdMissing (Num 1) (Num 2) None].

Definition blank_id_env : env :=
  Env (Some (Sheet false blank_id_rows)) [("nan", true)] one_series.

(** A scratch directory with a functional series, an anatomical one, and a
    sidecar that lost its image. *)
Definition rat7_tmp : path := temp_out "Rat 7".

Definition rat7_world : world :=
  World (list_to_map
    [(rat7_tmp ++ ["a.json"],
        Json (JObj [("RepetitionTime", JNum (float_of 1)); ("Modality", JStr "MR")]));
     (rat7_tmp ++ ["a.nii.gz"], Blob 1);
     (rat7_tmp ++ ["b.json"], Json (JObj [("RepetitionTime", JNum (float_of (5 # 2)))]));
     (rat7_tmp ++ ["b.nii.gz"], Blob 2);
     (rat7_tmp ++ ["c.json"], Json (JObj [("Modality", JStr "MR")]));
     (rat7_tmp ++ ["c.nii.gz"], Blob 3);
     (rat7_tmp ++ ["d.json"], Json (JObj [("RepetitionTime", JNum (float_of 1))]))])
    [].

(** ** Definitions used to state further properties *)

(** A world with one converted series, whose sidecar holds [j]. *)
Definition lone_scan (j : json) : world :=
  World (list_to_map [(["s.json"], Json j); (["s.nii.gz"], Blob 1)]) [].

(** A scratch directory with two functional series. *)
Definition two_bold_world : world :=
  World (list_to_map
    [(rat7_tmp ++ ["a.json"], Json (JObj [("RepetitionTime", JNum (float_of 1))]));
     (rat7_tmp ++ ["a.nii.gz"], Blob 1);
     (rat7_tmp ++ ["b.json"],
        Json (JObj [("RepetitionTime", JNum (float_of 1)); ("SeriesNumber", JNum (float_of 2))]));
     (rat7_tmp ++ ["b.nii.gz"], Blob 2)])
    [].

(** * Properties *)

(** ** Numbers and the tolerance test *)

(** The doubles of the literals of the script, by mantissa and exponent. *)
Lemma TR_TOLERANCE_double : TR_TOLERANCE = S754_finite false 7205759403792794 (-57).
Proof. vm_compute. reflexivity. Qed.

Lemma minus_one_double : float_of (-1) = S754_finite true 4503599627370496 (-52).
Proof. vm_compute. reflexivity. Qed.

Lemma float_of_examples :
  float_of 1 = S754_finite false 4503599627370496 (-52)
  ∧ float_of (5 # 2) = S754_finite false 5629499534213120 (-51)
  ∧ float_of (54 # 1000) = S754_finite false 7782220156096217 (-57)
  ∧ float_of (4 # 1000) = S754_finite false 4611686018427388 (-60)
  ∧ float_of (255 # 100) = S754_finite false 5742089524897382 (-51)
  ∧ float_of (1 # 10) = S754_finite false 7205759403792794 (-56)
  ∧ float_of 9007199254740993 = S754_finite false 4503599627370496 1.
Proof. repeat split; vm_compute; reflexivity. Qed.

Lemma float_of_str_examples :
  float_of_str "2.5" = Some (float_of (5 # 2))
  ∧ float_of_str " 1e3 " = Some (float_of 1000)
  ∧ float_of_str "1_0" = Some (float_of 10)
  ∧ float_of_str "-Infinity" = Some (S754_infinity true)
  ∧ float_of_str "nan" = Some NaN
  ∧ float_of_str "2,5" = None
  ∧ float_of_str "" = None
  ∧ float_of_str "1e" = None.
Proof. repeat split; vm_compute; reflexivity. Qed.

Lemma num_lt_irrefl (x : num) : num_lt x x = false.
Proof.
  unfold num_lt, SFltb. destruct x as [[]|[]| |[] m e]; cbn [SFcompare]; try done.
  - by rewrite Z.compare_refl, Pos.compare_cont_refl.
  - by rewrite Z.compare_refl, Pos.compare_cont_refl.
Qed.

Lemma within_NaN_target (tol a : num) : within tol a NaN = false.
Proof. by destruct a. Qed.

Lemma within_NaN_actual (tol t : num) : within tol NaN t = false.
Proof. done. Qed.

Lemma within_at_tolerance (tol a t : num) :
  num_abs (num_sub a t) = tol → within tol a t = false.
Proof. intros H. unfold within. rewrite H. apply num_lt_irrefl. Qed.

(** [a - a] is zero for a finite [a] (and NaN for an infinity). *)
Lemma num_sub_diag (a : num) : is_Some (exact_value a) → num_sub a a = S754_zero false.
Proof.
  destruct a as [[]|s| |s m e]; intros [x Hx]; try done.
  unfold num_sub. cbn [SFsub]. by rewrite Z.sub_diag.
Qed.

(** *** Rounding keeps a number that is at least one away from zero *)

Section rounding.
Local Open Scope Z_scope.

Lemma pow2_succ (d : positive) : 2 ^ Zpos (Pos.succ d) = 2 * 2 ^ Zpos d.
Proof. rewrite Pos2Z.inj_succ. apply Z.pow_succ_r. lia. Qed.

Lemma pow2_pred (d : positive) : 2 ^ Zpos d = 2 * 2 ^ (Zpos d - 1).
Proof. rewrite <- Z.pow_succ_r by lia. f_equal. lia. Qed.

Lemma digits2_pos_bounds (m : positive) :
  2 ^ (Zpos (digits2_pos m) - 1) ≤ Zpos m < 2 ^ Zpos (digits2_pos m).
Proof.
  induction m as [m IH|m IH|]; cbn [digits2_pos].
  - rewrite pow2_succ.
    replace (Zpos (Pos.succ (digits2_pos m)) - 1) with (Zpos (digits2_pos m)) by lia.
    pose proof (pow2_pred (digits2_pos m)). lia.
  - rewrite pow2_succ.
    replace (Zpos (Pos.succ (digits2_pos m)) - 1) with (Zpos (digits2_pos m)) by lia.
    pose proof (pow2_pred (digits2_pos m)). lia.
  - simpl. lia.
Qed.

Lemma shr_m_shr_1 (r : shr_record) : 0 ≤ shr_m r → shr_m (shr_1 r) = shr_m r / 2.
Proof.
  destruct r as [m r s]. cbn [shr_m]. intros Hm. unfold shr_1.
  destruct m as [|[p|p|]|p]; cbn [shr_m]; try lia; try reflexivity.
  - change (Z.pos p~1) with (2 * Z.pos p + 1). apply Z.div_unique with 1; lia.
  - change (Z.pos p~0) with (2 * Z.pos p). apply Z.div_unique with 0; lia.
Qed.

Lemma shr_m_iter (p : positive) (r : shr_record) :
  0 ≤ shr_m r → shr_m (SpecFloat.iter_pos shr_1 p r) = shr_m r / 2 ^ Zpos p.
Proof.
  revert r. induction p as [p IH|p IH|]; intros r Hr; cbn [SpecFloat.iter_pos].
  - assert (H1 : 0 ≤ shr_m (shr_1 r)).
    { rewrite shr_m_shr_1 by assumption. apply Z.div_pos; lia. }
    assert (H2 : 0 ≤ shr_m (SpecFloat.iter_pos shr_1 p (shr_1 r))).
    { rewrite IH by assumption. apply Z.div_pos; [assumption|].
      apply Z.pow_pos_nonneg; lia. }
    rewrite IH, IH, shr_m_shr_1 by assumption.
    rewrite !Z.div_div by (try apply Z.pow_pos_nonneg; lia).
    f_equal. change (Z.pos p~1) with (2 * Z.pos p + 1).
    replace (2 * Zpos p + 1) with (1 + Zpos p + Zpos p) by lia.
    rewrite !Z.pow_add_r by lia. lia.
  - assert (H2 : 0 ≤ shr_m (SpecFloat.iter_pos shr_1 p r)).
    { rewrite IH by assumption. apply Z.div_pos; [assumption|].
      apply Z.pow_pos_nonneg; lia. }
    rewrite IH, IH by assumption.
    rewrite !Z.div_div by (try apply Z.pow_pos_nonneg; lia).
    f_equal. change (Z.pos p~0) with (2 * Z.pos p).
    replace (2 * Zpos p) with (Zpos p + Zpos p) by lia.
    rewrite !Z.pow_add_r by lia. lia.
  - rewrite shr_m_shr_1 by assumption. reflexivity.
Qed.

Lemma shr_m_of_loc (m : Z) (l : location) : shr_m (shr_record_of_loc m l) = m.
Proof. by destruct l as [|[]]. Qed.

Lemma fexp_double (k : Z) : fexp 53 1024 k = Z.max (k - 53) (-1074).
Proof. reflexivity. Qed.

(** The shift to the exponent of the format leaves a positive mantissa
    and an exponent of at least -52, when the number is at least 1 or
    already has such an exponent. *)
Lemma shr_fexp_ge (m : positive) (e : Z) (l : location) :
  -52 ≤ e ∨ 1 ≤ Zpos (digits2_pos m) + e →
  0 < shr_m (shr_fexp 53 1024 (Zpos m) e l).1
  ∧ -52 ≤ (shr_fexp 53 1024 (Zpos m) e l).2.
Proof.
  intros H. unfold shr_fexp, shr. rewrite fexp_double. cbn [Zdigits2].
  pose proof (digits2_pos_bounds m) as [Hlo Hhi].
  set (d := Zpos (digits2_pos m)) in *.
  destruct (Z.max (d + e - 53) (-1074) - e) as [|n|n] eqn:En; cbn [fst snd].
  - rewrite shr_m_of_loc. lia.
  - rewrite shr_m_iter by (rewrite shr_m_of_loc; lia).
    rewrite shr_m_of_loc.
    assert (Hn : Zpos n = d - 53) by lia.
    split; [|lia].
    apply Z.div_str_pos. split; [apply Z.pow_pos_nonneg; lia|].
    rewrite Hn. etransitivity; [|exact Hlo].
    apply Z.pow_le_mono_r; lia.
  - rewrite shr_m_of_loc. lia.
Qed.

Lemma round_nearest_even_pos (m : Z) (l : location) :
  0 < m → 0 < round_nearest_even m l.
Proof.
  intros Hm. destruct l as [|[]]; cbn [round_nearest_even]; try lia.
  destruct (Z.even m); lia.
Qed.

Lemma binary_round_aux_ge (s : bool) (m : positive) (e : Z) (l : location) :
  -52 ≤ e ∨ 1 ≤ Zpos (digits2_pos m) + e →
  binary_round_aux 53 1024 s (Zpos m) e l = S754_infinity s
  ∨ ∃ m' e', binary_round_aux 53 1024 s (Zpos m) e l = S754_finite s m' e'
             ∧ -52 ≤ e'.
Proof.
  intros H. unfold binary_round_aux.
  destruct (shr_fexp_ge m e l H) as [Hm1 He1].
  destruct (shr_fexp 53 1024 (Zpos m) e l) as [mrs1 e1]. cbn [fst snd] in *.
  pose proof (round_nearest_even_pos _ (loc_of_shr_record mrs1) Hm1) as Hr.
  destruct (round_nearest_even (shr_m mrs1) (loc_of_shr_record mrs1)) as [|m2|m2];
    [lia| |lia].
  destruct (shr_fexp_ge m2 e1 loc_Exact (or_introl He1)) as [Hm2 He2].
  destruct (shr_fexp 53 1024 (Zpos m2) e1 loc_Exact) as [mrs2 e2]. cbn [fst snd] in *.
  destruct (shr_m mrs2) as [|m3|m3]; [lia| |lia].
  destruct (e2 <=? 1024 - 53); [right; by exists m3, e2|by left].
Qed.

Lemma binary_round_ge (s : bool) (m : positive) (e : Z) :
  1 ≤ Zpos (digits2_pos m) + e →
  binary_round 53 1024 s m e = S754_infinity s
  ∨ ∃ m' e', binary_round 53 1024 s m e = S754_finite s m' e' ∧ -52 ≤ e'.
Proof.
  intros H. unfold binary_round, shl_align. rewrite fexp_double.
  destruct (Z.max (Zpos (digits2_pos m) + e - 53) (-1074) - e) eqn:En.
  - apply binary_round_aux_ge. by right.
  - apply binary_round_aux_ge. by right.
  - apply binary_round_aux_ge. left. lia.
Qed.

Lemma iter_xO_pow (m d : positive) : Zpos (Pos.iter xO m d) = Zpos m * 2 ^ Zpos d.
Proof.
  induction d as [|d IH] using Pos.peano_ind.
  - simpl. lia.
  - rewrite Pos.iter_succ, pow2_succ.
    change (Zpos (Pos.iter xO m d)~0) with (2 * Zpos (Pos.iter xO m d)).
    rewrite IH. ring.
Qed.

(** [-1 - f] for a positive double [f]: minus infinity, or a negative
    double with an exponent of at least -52, so of absolute value at
    least [2 ^ -52]. *)
Lemma sub_minus_one_ge (m : positive) (e : Z) :
  num_sub (float_of (-1)) (S754_finite false m e) = S754_infinity true
  ∨ ∃ m' e', num_sub (float_of (-1)) (S754_finite false m e) = S754_finite true m' e'
             ∧ -52 ≤ e'.
Proof.
  rewrite minus_one_double. unfold num_sub. cbn [SFsub cond_Zopp].
  set (ez := Z.min (-52) e).
  set (X := (shl_align 4503599627370496 (-52) ez).1).
  set (Y := (shl_align m e ez).1).
  change (- Zpos X - Zpos Y) with (Zneg (X + Y)). cbn [binary_normalize].
  apply binary_round_ge.
  assert (HX : 2 ^ (- ez) ≤ Zpos X).
  { subst X. unfold shl_align. destruct (ez - -52) as [|d|d] eqn:Ed; cbn [fst].
    - replace (- ez) with 52 by lia. done.
    - lia.
    - rewrite iter_xO_pow. replace (- ez) with (52 + Zpos d) by lia.
      rewrite Z.pow_add_r by lia. done. }
  pose proof (digits2_pos_bounds (X + Y)) as [_ Hhi].
  assert (Hlt : 2 ^ (- ez) < 2 ^ Zpos (digits2_pos (X + Y))) by lia.
  apply Z.pow_lt_mono_r_iff in Hlt; lia.
Qed.
End rounding.

(** The value [-1] matches no positive target at the tolerance 0.05. *)
Lemma within_minus_one (f : num) :
  num_lt (float_of 0) f = true → within TR_TOLERANCE (float_of (-1)) f = false.
Proof.
  intros Hf. destruct f as [[]|[]| |[] m e]; try done.
  unfold within. destruct (sub_minus_one_ge m e) as [->|(m' & e' & -> & He)]; [done|].
  rewrite TR_TOLERANCE_double. unfold num_lt, SFltb. cbn [num_abs SFabs SFcompare].
  destruct (Z.compare_spec e' (-57)) as [?|?|?]; [lia|lia|done].
Qed.

(** C3, as the code has it: the comparisons are the ones the script
    computes, in doubles.  Whenever both hold, the verdict is Functional,
    and so not Anatomical: the functional comparison comes first.  With
    one and the same target for both, the verdict is never Anatomical,
    whatever the comparisons give. *)
Theorem functional_checked_first (tol a f an : num) :
  (within tol a f = true → within tol a an = true →
   classify tol a f an = Functional ∧ classify tol a f an ≠ Anatomical)
  ∧ classify tol a f f ≠ Anatomical.
Proof.
  unfold classify. split.
  - intros Hf _. rewrite Hf. by split.
  - by destruct (within tol a f).
Qed.

Lemma functional_checked_first_witness :
  within TR_TOLERANCE (float_of 1) (float_of 1) = true
  ∧ classify TR_TOLERANCE (float_of 1) (float_of 1) (float_of 1) = Functional.
Proof.
  split; [vm_compute; reflexivity|].
  apply (proj1 (functional_checked_first TR_TOLERANCE (float_of 1) (float_of 1)
                  (float_of 1)));
    vm_compute; reflexivity.
Defined.

(** C3, as the specification words it, fails: the doubles 0.054, 0.004
    and 0.05 stand for real numbers with [|0.054 - 0.004| < 0.05] and
    [|0.054 - 0.05| < 0.05], but the difference the script computes for the
    functional target is rounded to the double 0.05 itself, the functional
    test fails and the verdict is Anatomical. *)
Lemma rounded_difference_misses_functional :
  exactly_within TR_TOLERANCE (float_of (54 # 1000)) (float_of (4 # 1000))
  ∧ exactly_within TR_TOLERANCE (float_of (54 # 1000)) (float_of (5 # 100))
  ∧ num_sub (float_of (54 # 1000)) (float_of (4 # 1000)) = TR_TOLERANCE
  ∧ within TR_TOLERANCE (float_of (54 # 1000)) (float_of (4 # 1000)) = false
  ∧ classify TR_TOLERANCE (float_of (54 # 1000)) (float_of (4 # 1000)) (float_of (5 # 100))
    = Anatomical.
Proof. repeat split; vm_compute; reflexivity. Qed.

(** C4, as the code has it: a target matches exactly when the double the
    script computes for [abs(actual_tr - target)] is strictly below the
    tolerance; when that double is the tolerance itself the target does not
    match, and the scan goes on to the anatomical comparison and from there
    to Unclassified; a finite value matches itself exactly when the
    tolerance is positive; a NaN on either side matches nothing. *)
Theorem tolerance_is_strict (tol a t an : num) :
  (within tol a t = true ↔ num_lt (num_abs (num_sub a t)) tol = true)
  ∧ (num_abs (num_sub a t) = tol → within tol a t = false)
  ∧ (num_abs (num_sub a t) = tol →
     classify tol a t an = if within tol a an then Anatomical else Unclassified)
  ∧ (num_abs (num_sub a t) = tol → num_abs (num_sub a an) = tol →
     classify tol a t an = Unclassified)
  ∧ (is_Some (exact_value a) → within tol a a = num_lt (float_of 0) tol)
  ∧ (∀ x, within tol NaN x = false ∧ within tol x NaN = false).
Proof.
  split; [done|]. split; [apply within_at_tolerance|]. split; [|split; [|split]].
  - intros Ht. unfold classify. by rewrite (within_at_tolerance _ _ _ Ht).
  - intros Ht Han. unfold classify.
    by rewrite (within_at_tolerance _ _ _ Ht), (within_at_tolerance _ _ _ Han).
  - intros Ha. unfold within. by rewrite (num_sub_diag _ Ha).
  - intros x. split; [done | apply within_NaN_target].
Qed.

(** C4, as the specification words it, fails in both directions.  The
    decimal values 2.55 and 2.5 are exactly 0.05 apart, and the script
    matches them: their doubles are less than 0.05 apart.  The doubles
    0.054 and 0.004 stand for real numbers less than the tolerance apart,
    and the script does not match them: their difference is rounded to the
    tolerance. *)
Lemma rounding_moves_the_boundary :
  (Qabs ((255 # 100) - (5 # 2)) == 5 # 100)%Q
  ∧ exactly_within TR_TOLERANCE (float_of (255 # 100)) (float_of (5 # 2))
  ∧ within TR_TOLERANCE (float_of (255 # 100)) (float_of (5 # 2)) = true
  ∧ exactly_within TR_TOLERANCE (float_of (54 # 1000)) (float_of (4 # 1000))
  ∧ within TR_TOLERANCE (float_of (54 # 1000)) (float_of (4 # 1000)) = false.
Proof. repeat split; vm_compute; reflexivity. Qed.

(** ** Strings and paths *)

Lemma replace_json_no_dot (s t : string) :
  has_dot t = false → replace ".json" ".nii.gz" s = t → s = t.
Proof.
  unfold replace. revert t. induction s as [|c s IH]; intros t Hdot; [done|].
  cbn [replace_from]. destruct (String.prefix ".json" (String c s)).
  - intros <-. discriminate Hdot.
  - destruct t as [|c' t]; [done|]. intros [= -> Ht].
    f_equal. apply IH; [|done].
    cbn [has_dot] in Hdot. by destruct (decide (c' = "."%char)).
Qed.

Lemma endswith_cons (p : string) (c : ascii) (s : string) :
  endswith p (String c s) = if decide (String c s = p) then true else endswith p s.
Proof. done. Qed.

Lemma endswith_nii_gz (s : string) :
  endswith ".json" (".nii.gz" +:+ s) = endswith ".json" s.
Proof.
  change (".nii.gz" +:+ s) with
    (String "." (String "n" (String "i" (String "i" (String "."
      (String "g" (String "z" s))))))).
  do 7 (rewrite endswith_cons;
        match goal with |- context [decide (?x = ?y)] =>
          destruct (decide (x = y)) as [H|_]; [discriminate H|] end).
  done.
Qed.

Lemma endswith_replace_json (skip : nat) (s : string) :
  endswith ".json" (replace_from ".json" ".nii.gz" skip s) = false.
Proof.
  revert skip. induction s as [|c s IH]; intros skip; [done|].
  cbn [replace_from]. destruct skip as [|k]; [|apply IH].
  destruct (String.prefix ".json" (String c s)) eqn:Hp.
  - rewrite endswith_nii_gz. apply IH.
  - rewrite endswith_cons, IH.
    destruct (decide (_ = _)) as [H|]; [|done].
    injection H as -> Hs. apply (replace_json_no_dot s "json") in Hs; [|done].
    subst s. discriminate Hp.
Qed.

Lemma endswith_json_not_replaced (name : string) :
  endswith ".json" name = true → replace ".json" ".nii.gz" name ≠ name.
Proof.
  intros Hname Heq. unfold replace in Heq.
  pose proof (endswith_replace_json 0 name) as H. rewrite Heq in H. congruence.
Qed.

Lemma below_Some (dir p q : path) : below dir p = Some q → p = dir ++ q.
Proof.
  revert p. induction dir as [|d dir IH]; intros [|c p]; simpl; try congruence.
  destruct (decide (d = c)) as [->|]; [|done].
  intros H. by rewrite (IH _ H).
Qed.

Lemma is_json_in_inv (dir p : path) :
  is_json_in dir p = true →
  ∃ name, p = dir ++ [name] ∧ endswith ".json" name = true.
Proof.
  unfold is_json_in. destruct (below dir p) as [[|name [|]]|] eqn:Hb; try done.
  intros [Hn _]%andb_true_iff. exists name. by rewrite (below_Some _ _ _ Hb).
Qed.

Lemma is_json_in_prefix (dir p : path) : is_json_in dir p = true → dir `prefix_of` p.
Proof. intros (name & -> & _)%is_json_in_inv. by exists [name]. Qed.

Lemma nii_of_app (dir : path) (name : string) :
  nii_of (dir ++ [name]) = nii_of dir ++ [replace ".json" ".nii.gz" name].
Proof. unfold nii_of. by rewrite fmap_app. Qed.

Lemma length_nii_of (p : path) : length (nii_of p) = length p.
Proof. apply length_fmap. Qed.

(** The image of a sidecar never carries the name of a sidecar. *)
Lemma nii_of_not_json (dir dir' p q : path) :
  is_json_in dir p = true → is_json_in dir' q = true → nii_of q ≠ p.
Proof.
  intros (n & -> & Hn)%is_json_in_inv (m & -> & Hm)%is_json_in_inv.
  rewrite nii_of_app. intros [_ H]%app_inj_2; [|done].
  injection H as H. pose proof (endswith_replace_json 0 m) as Hr.
  unfold replace in H. rewrite H in Hr. congruence.
Qed.

(** ** Statements that leave a file alone *)

Section frame.
Context (p : path).

Lemma leaves_alone_ret {A} (a : A) : leaves_alone p (mret a).
Proof. intros w. split; [done|]. exists []. by rewrite app_nil_r. Qed.

Lemma leaves_alone_raise {A} (e : exn) : leaves_alone p (raise (A:=A) e).
Proof. intros w. split; [done|]. exists []. by rewrite app_nil_r. Qed.

Lemma leaves_alone_bind {A B} (m : M A) (k : A → M B) :
  leaves_alone p m → (∀ a, leaves_alone p (k a)) → leaves_alone p (m ≫= k).
Proof.
  intros Hm Hk w. destruct (Hm w) as (Hf & new & Ht & Hnew).
  unfold mbind, M_bind. destruct (m w) as [a w1|e w1]; simpl in *.
  - destruct (Hk a w1) as (Hf' & new' & Ht' & Hnew'). split; [congruence|].
    exists (new ++ new'). rewrite Ht', Ht, (assoc_L (++)).
    split; [done|]. by apply Forall_app.
  - split; [done|]. by exists new.
Qed.

Lemma leaves_alone_try_except {A} (m h : M A) :
  leaves_alone p m → leaves_alone p h → leaves_alone p (try_except m h).
Proof.
  intros Hm Hh w. destruct (Hm w) as (Hf & new & Ht & Hnew).
  unfold try_except. destruct (m w) as [a w1|e w1]; simpl in *.
  - split; [done|]. by exists new.
  - destruct (Hh w1) as (Hf' & new' & Ht' & Hnew'). split; [congruence|].
    exists (new ++ new'). rewrite Ht', Ht, (assoc_L (++)).
    split; [done|]. by apply Forall_app.
Qed.

Lemma leaves_alone_emit (ev : event) :
  touches p ev = false → leaves_alone p (emit ev).
Proof. intros Hev w. split; [done|]. exists [ev]. split; [done|]. by constructor. Qed.

Lemma leaves_alone_modify_files (f : gmap path content → gmap path content) :
  (∀ fs, f fs !! p = fs !! p) → leaves_alone p (modify_files f).
Proof.
  intros Hf w. split; [apply Hf|]. exists []. by rewrite app_nil_r.
Qed.

Lemma leaves_alone_read_file (q : path) : leaves_alone p (read_file q).
Proof.
  intros w. unfold read_file. destruct (files w !! q).
  - apply leaves_alone_ret.
  - apply (leaves_alone_raise (A:=content)).
Qed.

Lemma leaves_alone_path_exists (q : path) : leaves_alone p (path_exists q).
Proof. intros w. apply leaves_alone_ret. Qed.

Lemma leaves_alone_for_each {A} (body : A → M unit) (xs : list A) :
  Forall (λ x, leaves_alone p (body x)) xs → leaves_alone p (for_each body xs).
Proof.
  induction 1 as [|x xs Hx _ IH]; simpl.
  - apply leaves_alone_ret.
  - apply leaves_alone_bind; [done | by intros _].
Qed.

Lemma leaves_alone_open_read (q : path) (mode : string) :
  q ≠ p → leaves_alone p (open_read q mode).
Proof.
  intros Hq. apply leaves_alone_bind; [|intros _; apply leaves_alone_read_file].
  apply leaves_alone_emit. simpl. by rewrite bool_decide_eq_false.
Qed.

Lemma leaves_alone_write_file (q : path) (c : content) :
  q ≠ p → leaves_alone p (write_file q c).
Proof.
  intros Hq. apply leaves_alone_bind; [|intros _].
  - apply leaves_alone_emit. simpl. by rewrite bool_decide_eq_false.
  - apply leaves_alone_modify_files. intros fs. by apply lookup_insert_ne.
Qed.

Lemma leaves_alone_shutil_move (src dst : path) :
  src ≠ p → dst ≠ p → leaves_alone p (shutil_move src dst).
Proof.
  intros Hs Hd. apply leaves_alone_bind; [|intros _].
  - apply leaves_alone_emit. simpl.
    by rewrite !bool_decide_eq_false_2.
  - apply leaves_alone_bind; [apply leaves_alone_read_file|intros c].
    apply leaves_alone_modify_files. intros fs.
    by rewrite lookup_insert_ne, lookup_delete_ne.
Qed.

Lemma leaves_alone_json_load (c : content) : leaves_alone p (json_load c).
Proof.
  destruct c; first [apply leaves_alone_ret | apply (leaves_alone_raise (A:=json))].
Qed.

Lemma leaves_alone_data_get (data : json) (k : string) (dflt : json) :
  leaves_alone p (data_get data k dflt).
Proof.
  destruct data; first [apply leaves_alone_ret | apply (leaves_alone_raise (A:=json))].
Qed.

Lemma leaves_alone_read_actual_tr (json_file : path) :
  json_file ≠ p → leaves_alone p (read_actual_tr json_file).
Proof.
  intros Hj. apply leaves_alone_try_except; [|apply leaves_alone_ret].
  apply leaves_alone_bind; [by apply leaves_alone_open_read|intros c].
  apply leaves_alone_bind; [apply leaves_alone_json_load|intros data].
  apply leaves_alone_data_get.
Qed.

Lemma leaves_alone_add_task_name (json_file : path) :
  json_file ≠ p → leaves_alone p (add_task_name json_file).
Proof.
  intros Hj. apply leaves_alone_bind; [by apply leaves_alone_open_read|intros c].
  apply leaves_alone_bind; [apply leaves_alone_json_load|intros jdata].
  destruct jdata; try apply (leaves_alone_raise (A:=unit)).
  apply leaves_alone_modify_files. intros fs. by apply lookup_insert_ne.
Qed.

Lemma leaves_alone_relocate (clean_sub_name dest_folder new_name : string)
    (nii_file json_file : path) :
  nii_file ≠ p → json_file ≠ p →
  (∀ name, final_dir clean_sub_name dest_folder ++ [name] ≠ p) →
  leaves_alone p (relocate clean_sub_name dest_folder new_name nii_file json_file).
Proof.
  intros Hn Hj Hd. unfold relocate.
  apply leaves_alone_bind; [by apply leaves_alone_emit|intros _].
  apply leaves_alone_bind; [apply leaves_alone_shutil_move; [done|apply Hd]|intros _].
  apply leaves_alone_bind; [apply leaves_alone_shutil_move; [done|apply Hd]|intros _].
  by apply leaves_alone_emit.
Qed.

Lemma leaves_alone_process_scan (clean_sub_name : string) (a f : num) (json_file : path) :
  json_file ≠ p → nii_of json_file ≠ p →
  (∀ dest_folder name, final_dir clean_sub_name dest_folder ++ [name] ≠ p) →
  leaves_alone p (process_scan clean_sub_name a f json_file).
Proof.
  intros Hj Hn Hd. unfold process_scan.
  apply leaves_alone_bind; [apply leaves_alone_path_exists|intros found].
  destruct found; simpl; [|apply leaves_alone_ret].
  apply leaves_alone_bind; [by apply leaves_alone_read_actual_tr|intros tr].
  destruct (as_number tr) as [actual_tr|]; [|apply (leaves_alone_raise (A:=unit))].
  destruct (classify _ _ _ _).
  - apply leaves_alone_bind; [by apply leaves_alone_add_task_name|intros _].
    by apply leaves_alone_relocate.
  - by apply leaves_alone_relocate.
  - apply leaves_alone_ret.
Qed.
End frame.

(** ** One scan *)

(** A sidecar without its image is passed over. *)
Lemma process_scan_orphan (clean_sub_name : string) (a f : num) (json_file : path) (w : world) :
  files w !! nii_of json_file = None →
  process_scan clean_sub_name a f json_file w = Done tt w.
Proof.
  intros Hn. unfold process_scan, path_exists, mbind, M_bind. by rewrite Hn.
Qed.

Lemma read_actual_tr_object (json_file : path) (d : list (string * json)) (w : world) :
  files w !! json_file = Some (Json (JObj d)) →
  read_actual_tr json_file w
  = Done (default (JNum (float_of (-1))) (dict_get "RepetitionTime" d))
         (World (files w) (trace w ++ [Open json_file "r"])).
Proof.
  intros Hj. unfold read_actual_tr, try_except, open_read, read_file, emit,
    mbind, M_bind. simpl. by rewrite Hj.
Qed.

(** The complete effect of one scan whose sidecar is a JSON object with a
    numeric repetition time (or none) and whose image exists. *)
Lemma process_scan_object (clean_sub_name : string) (a f tr : num) (json_file : path)
    (d : list (string * json)) (c : content) (w : world) :
  files w !! json_file = Some (Json (JObj d)) →
  files w !! nii_of json_file = Some c →
  as_number (default (JNum (float_of (-1))) (dict_get "RepetitionTime" d)) = Some tr →
  json_file ≠ nii_of json_file →
  func_nii clean_sub_name ≠ json_file →
  anat_nii clean_sub_name ≠ json_file →
  process_scan clean_sub_name a f json_file w
  = match classify TR_TOLERANCE tr f a with
    | Functional =>
        Done tt (World
          (<[func_json clean_sub_name := Json (JObj (augment d))]>
             (delete json_file
                (<[func_nii clean_sub_name := c]>
                   (delete (nii_of json_file)
                      (<[json_file := Json (JObj (augment d))]> (files w))))))
          (trace w ++
             [Open json_file "r"; Open json_file "r+";
              Makedirs (final_dir clean_sub_name "func");
              Move (nii_of json_file) (func_nii clean_sub_name);
              Move json_file (func_json clean_sub_name);
              Printed (MsgConverted "func" (bold_name clean_sub_name))]))
    | Anatomical =>
        Done tt (World
          (<[anat_json clean_sub_name := Json (JObj d)]>
             (delete json_file
                (<[anat_nii clean_sub_name := c]>
                   (delete (nii_of json_file) (files w)))))
          (trace w ++
             [Open json_file "r";
              Makedirs (final_dir clean_sub_name "anat");
              Move (nii_of json_file) (anat_nii clean_sub_name);
              Move json_file (anat_json clean_sub_name);
              Printed (MsgConverted "anat" (T2w_name clean_sub_name))]))
    | Unclassified =>
        Done tt (World (files w) (trace w ++ [Open json_file "r"]))
    end.
Proof.
  intros Hj Hn Htr Hne Hfunc Hanat.
  unfold func_nii, func_json in *. unfold anat_nii, anat_json in *.
  unfold process_scan, path_exists. unfold mbind at 1, M_bind at 1.
  rewrite Hn, bool_decide_eq_true_2 by done.
  change (negb true) with false. cbv beta iota.
  unfold mbind at 1, M_bind at 1. rewrite (read_actual_tr_object _ _ _ Hj), Htr.
  destruct (classify TR_TOLERANCE tr f a); [| |done].
  - unfold add_task_name, relocate, shutil_move, open_read, read_file, emit,
      modify_files, mbind, M_bind. simpl.
    rewrite Hj. simpl.
    rewrite lookup_insert_ne, Hn by done. simpl.
    rewrite lookup_insert_ne, lookup_delete_ne, lookup_insert_eq by done.
    simpl. by rewrite <- !(assoc_L (++)).
  - unfold relocate, shutil_move, open_read, read_file, emit,
      modify_files, mbind, M_bind. simpl.
    rewrite Hn. simpl.
    rewrite lookup_insert_ne, lookup_delete_ne, Hj by done.
    simpl. by rewrite <- !(assoc_L (++)).
Qed.

Lemma process_scan_unclassified (clean_sub_name : string) (a f tr : num) (json_file : path)
    (d : list (string * json)) (w : world) :
  files w !! json_file = Some (Json (JObj d)) →
  is_Some (files w !! nii_of json_file) →
  as_number (default (JNum (float_of (-1))) (dict_get "RepetitionTime" d)) = Some tr →
  classify TR_TOLERANCE tr f a = Unclassified →
  process_scan clean_sub_name a f json_file w
  = Done tt (World (files w) (trace w ++ [Open json_file "r"])).
Proof.
  intros Hj Hn Htr Hv.
  unfold process_scan, path_exists. unfold mbind at 1, M_bind at 1.
  rewrite bool_decide_eq_true_2 by done.
  change (negb true) with false. cbv beta iota.
  unfold mbind at 1, M_bind at 1.
  by rewrite (read_actual_tr_object _ _ _ Hj), Htr, Hv.
Qed.

Lemma length_temp_json (sub_dir : string) (json_file : path) :
  is_json_in (temp_out sub_dir) json_file = true → length json_file = 9.
Proof. by intros (name & -> & _)%is_json_in_inv. Qed.

Lemma length_final_dir_file (clean_sub_name dest_folder name : string) :
  length (final_dir clean_sub_name dest_folder ++ [name]) = 10.
Proof. done. Qed.

Lemma final_dir_file_ne (clean_sub_name dest_folder name : string) (p : path) :
  (length p ≤ 9)%nat → final_dir clean_sub_name dest_folder ++ [name] ≠ p.
Proof.
  intros Hp Heq. rewrite <- Heq, length_final_dir_file in Hp. lia.
Qed.

Lemma temp_json_ne_nii (sub_dir : string) (json_file : path) :
  is_json_in (temp_out sub_dir) json_file = true → json_file ≠ nii_of json_file.
Proof. intros Hj Heq. by apply (nii_of_not_json _ _ _ _ Hj Hj). Qed.

(** ** The sidecar document *)

Lemma dict_get_set_eq (k : string) (v : json) (d : list (string * json)) :
  dict_get k (dict_set k v d) = Some v.
Proof.
  induction d as [|[k' v'] d IH]; simpl.
  - by rewrite decide_True.
  - destruct (decide (k' = k)); simpl; [by rewrite decide_True|].
    by rewrite decide_False.
Qed.

Lemma dict_get_set_ne (k k' : string) (v : json) (d : list (string * json)) :
  k' ≠ k → dict_get k' (dict_set k v d) = dict_get k' d.
Proof.
  intros Hne. induction d as [|[k0 v0] d IH]; simpl.
  - by rewrite decide_False.
  - destruct (decide (k0 = k)) as [->|]; simpl.
    + by rewrite !decide_False.
    + by rewrite IH.
Qed.

Lemma dict_set_idem (k : string) (v : json) (d : list (string * json)) :
  dict_set k v (dict_set k v d) = dict_set k v d.
Proof.
  induction d as [|[k0 v0] d IH]; simpl.
  - by rewrite decide_True.
  - destruct (decide (k0 = k)); simpl.
    + by rewrite decide_True.
    + by rewrite decide_False, IH.
Qed.

Lemma dict_set_keys (k : string) (v : json) (d : list (string * json)) :
  (dict_set k v d).*1 = if bool_decide (k ∈ d.*1) then d.*1 else d.*1 ++ [k].
Proof.
  induction d as [|[k0 v0] d IH].
  - rewrite bool_decide_eq_false_2; [done | apply not_elem_of_nil].
  - cbn [dict_set]. destruct (decide (k0 = k)) as [->|Hne].
    + rewrite bool_decide_eq_true_2; [done | apply list_elem_of_here].
    + rewrite !fmap_cons, IH. cbn [fst].
      destruct (decide (k ∈ d.*1)) as [Hin|Hin].
      * rewrite !bool_decide_eq_true_2; [done| |done].
        by apply list_elem_of_further.
      * rewrite !bool_decide_eq_false_2; [done| |done].
        intros [?|?]%elem_of_cons; congruence.
Qed.

(** Writing the task name into a sidecar twice leaves the files as after
    the first time. *)
Lemma add_task_name_twice (json_file : path) (w : world) :
  files (world_of (add_task_name json_file (world_of (add_task_name json_file w))))
  = files (world_of (add_task_name json_file w)).
Proof.
  unfold add_task_name, open_read, read_file, emit, modify_files, mbind, M_bind.
  simpl. destruct (files w !! json_file) as [[[]| |]|] eqn:Hj; simpl;
    rewrite ?Hj; simpl; try done.
  rewrite lookup_insert_eq. simpl. unfold augment.
  by rewrite dict_set_idem, insert_insert_eq.
Qed.

Lemma absent_tr_outside_windows (f an : num) :
  num_lt (float_of 0) f = true → num_lt (float_of 0) an = true →
  classify TR_TOLERANCE (float_of (-1)) f an = Unclassified.
Proof.
  intros Hf Ha. unfold classify.
  by rewrite (within_minus_one _ Hf), (within_minus_one _ Ha).
Qed.

(** C5: for positive targets (doubles above zero, the infinity included)
    and the tolerance 0.05, a scan whose sidecar has no RepetitionTime
    field gets the value -1, which is outside both windows: the verdict is
    Unclassified, and the scan changes no file and is not moved. *)
Theorem absent_tr_is_unclassified (clean_sub_name : string) (f an : num)
    (json_file : path) (d : list (string * json)) (w : world) :
  num_lt (float_of 0) f = true → num_lt (float_of 0) an = true →
  dict_get "RepetitionTime" d = None →
  files w !! json_file = Some (Json (JObj d)) →
  is_Some (files w !! nii_of json_file) →
  read_actual_tr json_file w
    = Done (JNum (float_of (-1))) (World (files w) (trace w ++ [Open json_file "r"]))
  ∧ classify TR_TOLERANCE (float_of (-1)) f an = Unclassified
  ∧ process_scan clean_sub_name an f json_file w
    = Done tt (World (files w) (trace w ++ [Open json_file "r"])).
Proof.
  intros Hf Ha Hd Hj Hn. split; [|split].
  - by rewrite (read_actual_tr_object _ _ _ Hj), Hd.
  - by apply absent_tr_outside_windows.
  - apply (process_scan_unclassified _ _ _ (float_of (-1)) _ d); try done.
    + by rewrite Hd.
    + by apply absent_tr_outside_windows.
Qed.

Lemma absent_tr_is_unclassified_witness :
  process_scan "rat7" (float_of (5 # 2)) (float_of 1) (rat7_tmp ++ ["c.json"]) rat7_world
  = Done tt (World (files rat7_world) [Open (rat7_tmp ++ ["c.json"]) "r"]).
Proof.
  apply (absent_tr_is_unclassified "rat7" (float_of 1) (float_of (5 # 2))
           (rat7_tmp ++ ["c.json"])
           [("Modality", JStr "MR")] rat7_world).
  - reflexivity.
  - reflexivity.
  - reflexivity.
  - vm_compute. reflexivity.
  - exists (Blob 3). vm_compute. reflexivity.
Defined.

(** C8: when the metadata table cannot be read, the run stops at once: no
    file is written or changed (so no dataset_description.json and no
    participants.tsv), no subject is processed, and the only events are the
    attempt to read the workbook and the error message. *)
Theorem unreadable_metadata_aborts (e : env) (w : world) :
  read_excel e = None →
  convert_dataset e w
  = Done tt (World (files w) (trace w ++ [Open EXCEL_PATH "rb"; Printed MsgExcelError]))
  ∧ files (world_of (main e w)) = files w
  ∧ trace (world_of (main e w))
    = trace w ++ [Open EXCEL_PATH "rb"; Printed MsgExcelError; Printed MsgFinished].
Proof.
  intros He. unfold main, convert_dataset, emit, mbind, M_bind. rewrite He. simpl.
  by rewrite <- !(assoc_L (++)).
Qed.

Lemma unreadable_metadata_aborts_witness :
  convert_dataset (Env None [("rat7", true)] one_series) rat7_world
  = Done tt (World (files rat7_world) [Open EXCEL_PATH "rb"; Printed MsgExcelError]).
Proof.
  apply (unreadable_metadata_aborts (Env None [("rat7", true)] one_series) rat7_world).
  reflexivity.
Defined.

(** C7: for the sidecar of a scan the glob of the scratch directory lists,
    a JSON object [d] with its image present: the augmentation sets
    TaskName to "visual", keeps every other field (value and place), adds at
    most that one key, and is idempotent, on the document and on the file;
    a Functional scan's sidecar arrives at its destination holding the
    augmented document, an Anatomical one arrives holding [d] itself and is
    never opened for writing, and an Unclassified one changes no file. *)
Theorem task_name_is_the_only_change (clean_sub_name sub_dir : string) (a f tr : num)
    (json_file : path) (d : list (string * json)) (c : content) (w : world) :
  is_json_in (temp_out sub_dir) json_file = true →
  files w !! json_file = Some (Json (JObj d)) →
  files w !! nii_of json_file = Some c →
  as_number (default (JNum (float_of (-1))) (dict_get "RepetitionTime" d)) = Some tr →
  let w' := world_of (process_scan clean_sub_name a f json_file w) in
  dict_get "TaskName" (augment d) = Some (JStr "visual")
  ∧ (∀ k, k ≠ "TaskName" → dict_get k (augment d) = dict_get k d)
  ∧ (augment d).*1
    = (if bool_decide ("TaskName" ∈ d.*1) then d.*1 else d.*1 ++ ["TaskName"])
  ∧ augment (augment d) = augment d
  ∧ files (world_of (add_task_name json_file (world_of (add_task_name json_file w))))
    = files (world_of (add_task_name json_file w))
  ∧ match classify TR_TOLERANCE tr f a with
    | Functional =>
        files w' !! func_json clean_sub_name = Some (Json (JObj (augment d)))
    | Anatomical =>
        files w' !! anat_json clean_sub_name = Some (Json (JObj d))
        ∧ trace w' = trace w ++
            [Open json_file "r";
             Makedirs (final_dir clean_sub_name "anat");
             Move (nii_of json_file) (anat_nii clean_sub_name);
             Move json_file (anat_json clean_sub_name);
             Printed (MsgConverted "anat" (T2w_name clean_sub_name))]
    | Unclassified =>
        files w' = files w ∧ trace w' = trace w ++ [Open json_file "r"]
    end.
Proof.
  intros Hglob Hj Hn Htr w'.
  split; [apply dict_get_set_eq|].
  split; [intros k Hk; by apply dict_get_set_ne|].
  split; [apply dict_set_keys|].
  split; [apply dict_set_idem|].
  split; [apply add_task_name_twice|].
  assert (Hrun := process_scan_object clean_sub_name a f tr json_file d c w Hj Hn Htr).
  subst w'. rewrite Hrun.
  - destruct (classify TR_TOLERANCE tr f a); simpl.
    + apply lookup_insert_eq.
    + split; [apply lookup_insert_eq | done].
    + done.
  - by apply (temp_json_ne_nii sub_dir).
  - apply final_dir_file_ne. by rewrite (length_temp_json sub_dir).
  - apply final_dir_file_ne. by rewrite (length_temp_json sub_dir).
Qed.

Lemma task_name_is_the_only_change_witness :
  files (world_of (process_scan "rat7" (float_of (5 # 2)) (float_of 1)
                     (rat7_tmp ++ ["a.json"]) rat7_world))
    !! func_json "rat7"
  = Some (Json (JObj [("RepetitionTime", JNum (float_of 1)); ("Modality", JStr "MR");
                      ("TaskName", JStr "visual")])).
Proof.
  apply (task_name_is_the_only_change "rat7" "Rat 7" (float_of (5 # 2)) (float_of 1) (float_of 1)
           (rat7_tmp ++ ["a.json"])
           [("RepetitionTime", JNum (float_of 1)); ("Modality", JStr "MR")]
           (Blob 1) rat7_world).
  - vm_compute. reflexivity.
  - vm_compute. reflexivity.
  - vm_compute. reflexivity.
  - reflexivity.
Defined.

(** ** Sidecars without an image *)

Lemma orphan_survives_loop (clean_sub_name sub_dir : string) (a f : num)
    (orphan : path) (json_files : list path) (w : world) :
  is_json_in (temp_out sub_dir) orphan = true →
  Forall (λ j, is_json_in (temp_out sub_dir) j = true) json_files →
  files w !! nii_of orphan = None →
  let w' := world_of (for_each (process_scan clean_sub_name a f) json_files w) in
  files w' !! orphan = files w !! orphan
  ∧ ∃ new, trace w' = trace w ++ new ∧ Forall (λ ev, touches orphan ev = false) new.
Proof.
  intros Ho Hjs. revert w.
  induction Hjs as [|j js Hj _ IH]; intros w Hn; simpl.
  { split; [done|]. exists []. by rewrite app_nil_r. }
  unfold mbind, M_bind.
  destruct (files w !! nii_of j) as [c|] eqn:Hnj.
  - assert (Hne : nii_of j ≠ nii_of orphan) by congruence.
    assert (Hlen := length_temp_json _ _ Ho).
    assert (Ha : leaves_alone orphan (process_scan clean_sub_name a f j)).
    { apply leaves_alone_process_scan.
      - intros ->. congruence.
      - by apply (nii_of_not_json _ _ _ _ Ho Hj).
      - intros v name. apply final_dir_file_ne. lia. }
    assert (Hb : leaves_alone (nii_of orphan) (process_scan clean_sub_name a f j)).
    { apply leaves_alone_process_scan.
      - intros Heq. by apply (nii_of_not_json _ _ _ _ Hj Ho).
      - done.
      - intros v name. apply final_dir_file_ne. rewrite length_nii_of. lia. }
    destruct (Ha w) as (Hf & new & Ht & Hnew). destruct (Hb w) as (Hf' & _).
    destruct (process_scan clean_sub_name a f j w) as [[] w1|e w1]; simpl in *.
    + destruct (IH w1) as (Hf1 & new1 & Ht1 & Hnew1); [congruence|].
      split; [congruence|]. exists (new ++ new1).
      rewrite Ht1, Ht, (assoc_L (++)). split; [done|]. by apply Forall_app.
    + split; [done|]. by exists new.
  - rewrite (process_scan_orphan _ _ _ _ _ Hnj). by apply IH.
Qed.

Lemma shutil_rmtree_removes (dir p : path) (w : world) :
  dir `prefix_of` p → files (world_of (shutil_rmtree dir w)) !! p = None.
Proof.
  intros Hp. unfold shutil_rmtree, emit, modify_files, mbind, M_bind. simpl.
  apply map_lookup_filter_None. right. intros c _ Hnot. by apply Hnot.
Qed.

(** C9: a sidecar the glob lists whose image does not exist is passed over
    before anything is read: processing it changes neither the files nor
    the trace (no open, no classification, no augmentation, no move); over
    the whole loop of its subject no event touches it and it stays in
    place; it goes when the scratch directory is removed. *)
Theorem orphan_sidecar_is_skipped (clean_sub_name sub_dir : string) (a f : num)
    (orphan : path) (json_files : list path) (w : world) :
  is_json_in (temp_out sub_dir) orphan = true →
  Forall (λ j, is_json_in (temp_out sub_dir) j = true) json_files →
  files w !! nii_of orphan = None →
  let w' := world_of (for_each (process_scan clean_sub_name a f) json_files w) in
  process_scan clean_sub_name a f orphan w = Done tt w
  ∧ files w' !! orphan = files w !! orphan
  ∧ (∃ new, trace w' = trace w ++ new ∧ Forall (λ ev, touches orphan ev = false) new)
  ∧ files (world_of (shutil_rmtree (temp_out sub_dir) w')) !! orphan = None.
Proof.
  intros Ho Hjs Hn w'. split; [by apply process_scan_orphan|].
  destruct (orphan_survives_loop clean_sub_name sub_dir a f orphan json_files w
              Ho Hjs Hn) as [Hf Ht].
  split; [done|]. split; [done|].
  apply shutil_rmtree_removes. by apply is_json_in_prefix.
Qed.

Lemma orphan_sidecar_is_skipped_witness :
  process_scan "rat7" (float_of (5 # 2)) (float_of 1) (rat7_tmp ++ ["d.json"]) rat7_world
  = Done tt rat7_world.
Proof.
  apply (orphan_sidecar_is_skipped "rat7" "Rat 7" (float_of (5 # 2)) (float_of 1)
           (rat7_tmp ++ ["d.json"])
           [rat7_tmp ++ ["a.json"]; rat7_tmp ++ ["d.json"]; rat7_tmp ++ ["b.json"]]
           rat7_world).
  - vm_compute. reflexivity.
  - repeat constructor.
  - vm_compute. reflexivity.
Defined.

(** ** The metadata table *)

Lemma length_ffill_from (prev : cell) (col : list cell) :
  length (ffill_from prev col) = length col.
Proof. revert prev. induction col as [|c col IH]; intros prev; simpl; [done|]. by rewrite IH. Qed.

Lemma length_prepare (rs : list sheet_row) : length (prepare rs) = length rs.
Proof.
  unfold prepare, zip_rows, ffill.
  rewrite length_zip_with_l_eq; [done|].
  by rewrite length_zip, !length_ffill_from, !length_fmap, Nat.min_id.
Qed.

(** Every row of the sheet is a row of [df], at the same place and under
    its normalized identifier. *)
Lemma prepare_lookup (rs : list sheet_row) (i : nat) (r : sheet_row) :
  rs !! i = Some r →
  ∃ a f, prepare rs !! i
         = Some (DfRow (rat_ID r) a f (rat_gender r) (clean_id (rat_ID r))).
Proof.
  intros Hi. unfold prepare, zip_rows.
  destruct (lookup_lt_is_Some_2 (zip (ffill (anat_TR <$> rs)) (ffill (func_TR <$> rs))) i)
    as [[a f] Haf].
  { unfold ffill. rewrite length_zip, !length_ffill_from, !length_fmap, Nat.min_id.
    by apply lookup_lt_Some in Hi. }
  exists a, f. by rewrite lookup_zip_with, Hi, Haf.
Qed.

Lemma matching_rows_first (df pre post : list df_row) (r : df_row) (k : string) :
  df = pre ++ r :: post →
  Forall (λ r', df_clean_id r' ≠ k) pre →
  df_clean_id r = k →
  matching_rows df k = r :: matching_rows post k.
Proof.
  intros -> Hpre Hr. unfold matching_rows.
  induction Hpre as [|r' pre Hr' _ IH]; simpl.
  - by rewrite filter_cons_True.
  - by rewrite filter_cons_False.
Qed.

(** C2, as the code has it: of several rows with the same normalized key,
    the first one from the top gives the pair of targets (after the fill
    down); the rows below it play no part. *)
Theorem first_matching_row_is_used (rs : list sheet_row) (pre post : list df_row)
    (r : df_row) (k : string) :
  prepare rs = pre ++ r :: post →
  Forall (λ r', df_clean_id r' ≠ k) pre →
  df_clean_id r = k →
  subject_targets (prepare rs) k = row_targets r.
Proof.
  intros Hdf Hpre Hr. unfold subject_targets.
  by rewrite (matching_rows_first _ _ _ _ _ Hdf Hpre Hr).
Qed.

Lemma first_matching_row_is_used_witness :
  subject_targets (prepare twice_rows) "rat1" = Targets (float_of 1) (float_of 2).
Proof.
  apply (first_matching_row_is_used twice_rows []
           [DfRow (IdText "Rat 1") (Num 3) (Num 4) None "rat1"]
           (DfRow (IdText "rat1") (Num 1) (Num 2) None "rat1") "rat1").
  - vm_compute. reflexivity.
  - constructor.
  - reflexivity.
Defined.

(** C2, as the specification words it, fails: with two rows for [rat1] the
    mapping of the specification holds the later pair, and the lookup of the
    script returns the earlier one. *)
Lemma later_row_does_not_overwrite :
  df_clean_id <$> prepare twice_rows = ["rat1"; "rat1"]
  ∧ row_targets <$> prepare twice_rows
    = [Targets (float_of 1) (float_of 2); Targets (float_of 3) (float_of 4)]
  ∧ spec_reconcile twice_rows !! "rat1" = Some (3%Q, 4%Q)
  ∧ subject_targets (prepare twice_rows) "rat1" ≠ Targets (float_of 3) (float_of 4).
Proof.
  split; [vm_compute; reflexivity|].
  split; [vm_compute; reflexivity|].
  split; [vm_compute; reflexivity|].
  vm_compute. intros H. discriminate H.
Qed.

(** C1: the script at a sheet whose only row for [rat1] has blank timing
    cells.  [float(nan)] does not raise, so the [except] branch of lines
    89-91 is not taken: the targets are NaN, the conversion tool runs and
    the sidecar of the series is opened and compared. *)
Theorem blank_tr_subject_is_not_skipped :
  subject_targets (prepare blank_tr_rows) "rat1" = Targets NaN NaN
  ∧ spec_reconcile blank_tr_rows !! "rat1" = None
  ∧ trace (world_of (convert_dataset blank_tr_env empty_world))
    = [Open EXCEL_PATH "rb";
       Makedirs BIDS_ROOT;
       Open (BIDS_ROOT ++ ["dataset_description.json"]) "w";
       Open (BIDS_ROOT ++ ["participants.tsv"]) "w";
       Printed (MsgProcessing "rat1" "rat1");
       Printed (MsgTargets NaN NaN);
       Makedirs (temp_out "rat1");
       Run "dcm2niix" (temp_out "rat1") (DATA_ROOT ++ ["rat1"]);
       Open (temp_out "rat1" ++ ["3_T2.json"]) "r";
       Rmtree (temp_out "rat1")].
Proof.
  split; [vm_compute; reflexivity|].
  split; vm_compute; reflexivity.
Qed.

(** ** The loop over the subjects *)

Lemma leaves_alone_bind_post {A B} (p : path) (Q : A → Prop) (m : M A) (k : A → M B) :
  (∀ w a w', m w = Done a w' → Q a) →
  leaves_alone p m → (∀ a, Q a → leaves_alone p (k a)) → leaves_alone p (m ≫= k).
Proof.
  intros HQ Hm Hk w. destruct (Hm w) as (Hf & new & Ht & Hnew).
  unfold mbind, M_bind. destruct (m w) as [a w1|e w1] eqn:Hmw; simpl in *.
  - destruct (Hk a (HQ _ _ _ Hmw) w1) as (Hf' & new' & Ht' & Hnew').
    split; [congruence|]. exists (new ++ new').
    rewrite Ht', Ht, (assoc_L (++)). split; [done|]. by apply Forall_app.
  - split; [done|]. by exists new.
Qed.

Lemma glob_json_lists (dir : path) (w : world) (l : list path) (w' : world) :
  glob_json dir w = Done l w' → Forall (λ j, is_json_in dir j = true) l.
Proof.
  unfold glob_json. intros [= <- _]. apply Forall_forall.
  by intros j [Hj _]%list_elem_of_filter.
Qed.

Lemma leaves_alone_glob_json (p dir : path) : leaves_alone p (glob_json dir).
Proof. intros w. apply leaves_alone_ret. Qed.

Lemma temp_out_not_prefix (sub_dir : string) (p : path) :
  (length p ≤ 7)%nat → ¬ temp_out sub_dir `prefix_of` p.
Proof. intros Hp Hpre%prefix_length. simpl in Hpre. lia. Qed.

Lemma leaves_alone_shutil_rmtree (p dir : path) :
  ¬ dir `prefix_of` p → leaves_alone p (shutil_rmtree dir).
Proof.
  intros Hp. apply leaves_alone_bind; [|intros _].
  - apply leaves_alone_emit. simpl. by rewrite bool_decide_eq_false_2.
  - apply leaves_alone_modify_files. intros fs.
    rewrite map_lookup_filter. destruct (fs !! p); simpl; [|done].
    by rewrite option_guard_True.
Qed.

Section shallow_files.
Context (e : env) (p : path).
Hypothesis tool : tool_confined e.
Hypothesis shallow : (length p ≤ 7)%nat.

Lemma leaves_alone_convert_subject (sub_dir clean_sub_name : string) (a f : num) :
  leaves_alone p (convert_subject e sub_dir clean_sub_name a f).
Proof using tool shallow.
  unfold convert_subject.
  apply leaves_alone_bind; [by apply leaves_alone_emit|intros _].
  apply leaves_alone_bind; [|intros _].
  { apply leaves_alone_bind; [by apply leaves_alone_emit|intros _].
    apply leaves_alone_modify_files. intros fs. apply tool.
    by apply temp_out_not_prefix. }
  apply (leaves_alone_bind_post p _ _ _ (glob_json_lists _));
    [apply leaves_alone_glob_json|intros json_files Hjs].
  apply leaves_alone_bind; [|intros _].
  { case_bool_decide; [by apply leaves_alone_emit|apply leaves_alone_ret]. }
  apply leaves_alone_bind; [|intros _].
  - apply leaves_alone_for_each. eapply Forall_impl; [exact Hjs|].
    intros j Hj. pose proof (length_temp_json _ _ Hj) as Hlen.
    apply leaves_alone_process_scan.
    + intros ->. lia.
    + intros <-. rewrite length_nii_of in shallow. lia.
    + intros v name. apply final_dir_file_ne. lia.
  - apply leaves_alone_shutil_rmtree. by apply temp_out_not_prefix.
Qed.

Lemma leaves_alone_process_subject (df : list df_row) (sub_dir : string) :
  leaves_alone p (process_subject e df sub_dir).
Proof using tool shallow.
  unfold process_subject.
  apply leaves_alone_bind; [by apply leaves_alone_emit|intros _].
  destruct (subject_targets _ _); try by apply leaves_alone_emit.
  apply leaves_alone_bind; [by apply leaves_alone_emit|intros _].
  apply leaves_alone_convert_subject.
Qed.
End shallow_files.

(** Whatever the subjects on disk, participants.tsv ends up holding the
    table made from the sheet. *)
Lemma convert_dataset_participants (e : env) (sh : sheet) (w : world) :
  read_excel e = Some sh → tool_confined e →
  participants_written e w
  = Some (participants (has_gender sh) (prepare (sheet_rows sh))).
Proof.
  intros He Htool. unfold participants_written, convert_dataset. rewrite He.
  unfold setup_bids, write_file, emit, modify_files.
  unfold mbind at 1 2 3 4, M_bind at 1 2 3 4. simpl.
  match goal with |- files (world_of (for_each ?b ?l ?w1)) !! ?p = _ =>
    assert (Hl : leaves_alone p (for_each b l)) end.
  { apply leaves_alone_for_each, Forall_forall. intros sub_dir _.
    by apply leaves_alone_process_subject. }
  match goal with |- files (world_of (for_each ?b ?l ?w1)) !! ?p = _ =>
    destruct (Hl w1) as [-> _] end.
  simpl. apply lookup_insert_eq.
Qed.

(** C6, as the code has it: participants.tsv holds exactly one data row
    for every row of the metadata sheet (rows that repeat a key and rows
    without usable timing values included), whatever the directories on
    disk and whatever the conversion tool produced. *)
Theorem participants_one_row_per_sheet_row (e : env) (sh : sheet) (w : world) :
  read_excel e = Some sh → tool_confined e →
  ∃ header rows,
    participants_written e w = Some (Tsv header rows)
    ∧ length rows = length (sheet_rows sh)
    ∧ (∀ i r, sheet_rows sh !! i = Some r →
         head <$> rows !! i = Some (Some ("sub-" +:+ clean_id (rat_ID r)))).
Proof.
  intros He Htool. rewrite (convert_dataset_participants e sh w He Htool).
  unfold participants. eexists _, _. split; [done|]. split.
  - by rewrite length_fmap, length_prepare.
  - intros i r Hi. destruct (prepare_lookup _ _ _ Hi) as (a & f & Hdf).
    by rewrite list_lookup_fmap, Hdf.
Qed.

Lemma no_output_confined (read : option sheet) (entries : list (string * bool)) :
  tool_confined (Env read entries no_output).
Proof. by intros out_dir in_dir fs p _. Qed.

Lemma one_series_confined (read : option sheet) (entries : list (string * bool)) :
  tool_confined (Env read entries one_series).
Proof.
  intros out_dir in_dir fs p Hp. simpl. unfold one_series.
  rewrite !lookup_insert_ne; [done| |]; intros <-; apply Hp; by eexists.
Qed.

Lemma participants_one_row_per_sheet_row_witness :
  ∃ header rows,
    participants_written twice_env empty_world = Some (Tsv header rows)
    ∧ length rows = 2%nat
    ∧ (∀ i r, twice_rows !! i = Some r →
         head <$> rows !! i = Some (Some ("sub-" +:+ clean_id (rat_ID r)))).
Proof.
  apply (participants_one_row_per_sheet_row twice_env (Sheet false twice_rows)
           empty_world).
  - reflexivity.
  - apply no_output_confined.
Defined.

(** C6, as the specification words it, fails: a sheet that names [rat1]
    twice gives two rows in participants.tsv and one record in the mapping
    of the specification. *)
Lemma participants_rows_exceed_records :
  tsv_rows <$> participants_written twice_env empty_world
    = Some [["sub-rat1"]; ["sub-rat1"]]
  ∧ size (spec_reconcile twice_rows) = 1%nat
  ∧ (length ∘ tsv_rows) <$> participants_written twice_env empty_world
    ≠ Some (size (spec_reconcile twice_rows)).
Proof.
  split; [vm_compute; reflexivity|].
  split; [vm_compute; reflexivity|].
  vm_compute. intros H. discriminate H.
Qed.

(** ** Blank identifiers *)

Lemma rstrip_keeps_head (c : ascii) (s : string) :
  isspace c = false → ∃ t, rstrip (String c s) = String c t.
Proof.
  intros Hc. cbn [rstrip]. destruct (rstrip s); rewrite ?Hc; by eexists.
Qed.

Lemma clean_id_of_rat (d : string) :
  startswith "rat" (lower d) = true → ∃ s, clean_id (IdText d) = String "r" s.
Proof.
  unfold clean_id, startswith. cbn [py_str].
  destruct (lower d) as [|c s]; [done|].
  change (String.prefix "rat" (String c s))
    with (if Ascii.ascii_dec "r" c then String.prefix "at" s else false).
  destruct (Ascii.ascii_dec "r" c) as [<-|]; [intros _|done].
  unfold strip. change (lstrip (String "r" s)) with (String "r" s).
  destruct (rstrip_keeps_head "r" s) as [t ->]; [done|].
  by exists (replace_from " " "" 0 t).
Qed.

Lemma subject_dirs_rat (entries : list (string * bool)) (d : string) :
  d ∈ subject_dirs entries → startswith "rat" (lower d) = true.
Proof.
  unfold subject_dirs. intros ([d' b] & -> & Hin)%list_elem_of_fmap.
  by apply list_elem_of_filter in Hin as [[_ Hrat] _].
Qed.

(** C10, as the code has it: a row with a blank identifier is kept under
    the key "nan": participants.tsv gets a "sub-nan" row for it and the
    rows selected for the key "nan" are not empty; but no directory is ever
    looked up under that key, because line 68 keeps only the directories
    whose lower-cased name starts with "rat", and such a name does not
    normalize to "nan". *)
Theorem blank_id_is_kept_as_nan (e : env) (sh : sheet) (r : sheet_row) (w : world) :
  read_excel e = Some sh → tool_confined e →
  r ∈ sheet_rows sh → rat_ID r = IdMissing →
  clean_id (rat_ID r) = "nan"
  ∧ (∃ header rows,
       participants_written e w = Some (Tsv header rows)
       ∧ ∃ row, row ∈ rows ∧ head row = Some "sub-nan")
  ∧ matching_rows (prepare (sheet_rows sh)) "nan" ≠ []
  ∧ ∀ d, clean_id (IdText d) = "nan" → d ∉ subject_dirs (listdir e).
Proof.
  intros He Htool Hr Hid.
  apply list_elem_of_lookup in Hr as [i Hi].
  destruct (prepare_lookup _ _ _ Hi) as (a & f & Hdf). rewrite Hid in Hdf.
  change (clean_id IdMissing) with "nan" in Hdf.
  split; [by rewrite Hid|]. split; [|split].
  - rewrite (convert_dataset_participants e sh w He Htool).
    unfold participants. eexists _, _. split; [done|].
    eexists. split.
    + apply list_elem_of_fmap. eexists. split; [done|].
      by apply list_elem_of_lookup_2 in Hdf.
    + done.
  - apply list_elem_of_lookup_2 in Hdf. intros Hnil.
    assert (Hin : DfRow IdMissing a f (rat_gender r) "nan"
                  ∈ matching_rows (prepare (sheet_rows sh)) "nan").
    { unfold matching_rows. by apply list_elem_of_filter. }
    rewrite Hnil in Hin. by apply not_elem_of_nil in Hin.
  - intros d Hd Hin. apply subject_dirs_rat, clean_id_of_rat in Hin as [s Hs].
    congruence.
Qed.

Lemma blank_id_is_kept_as_nan_witness :
  ∃ header rows,
    participants_written blank_id_env empty_world = Some (Tsv header rows)
    ∧ ∃ row, row ∈ rows ∧ head row = Some "sub-nan".
Proof.
  apply (blank_id_is_kept_as_nan blank_id_env (Sheet false blank_id_rows)
           (SheetRow IdMissing (Num 1) (Num 2) None) empty_world).
  - reflexivity.
  - apply one_series_confined.
  - apply list_elem_of_here.
  - reflexivity.
Defined.

(** C10, as stated, fails: the sheet has a row with a blank identifier and
    the disk a directory called [nan], whose name normalizes to "nan" and
    whose key the table holds; the directory is not among the subject
    directories and the run processes no subject. *)
Lemma nan_directory_is_never_matched :
  clean_id (IdText "nan") = "nan"
  ∧ subject_targets (prepare blank_id_rows) "nan" = Targets (float_of 1) (float_of 2)
  ∧ listdir blank_id_env = [("nan", true)]
  ∧ subject_dirs (listdir blank_id_env) = []
  ∧ trace (world_of (convert_dataset blank_id_env empty_world))
    = [Open EXCEL_PATH "rb";
       Makedirs BIDS_ROOT;
       Open (BIDS_ROOT ++ ["dataset_description.json"]) "w";
       Open (BIDS_ROOT ++ ["participants.tsv"]) "w"].
Proof. repeat split; vm_compute; reflexivity. Qed.

(** ** Normalized identifiers *)

Lemma ascii_lower_idem (c : ascii) : ascii_lower (ascii_lower c) = ascii_lower c.
Proof. by destruct c as [[] [] [] [] [] [] [] []]. Qed.

Lemma isspace_lower (c : ascii) : isspace (ascii_lower c) = isspace c.
Proof. by destruct c as [[] [] [] [] [] [] [] []]. Qed.

Lemma lower_is_space (c : ascii) : ascii_lower c = " "%char ↔ c = " "%char.
Proof. destruct c as [[] [] [] [] [] [] [] []]; by split. Qed.

Lemma isspace_space (c : ascii) : c = " "%char → isspace c = true.
Proof. by intros ->. Qed.

Lemma lower_idem (s : string) : lower (lower s) = lower s.
Proof. induction s as [|c s IH]; simpl; [done|]. by rewrite ascii_lower_idem, IH. Qed.

Lemma lower_app (s t : string) : lower (s +:+ t) = lower s +:+ lower t.
Proof.
  induction s as [|c s IH]; [done|].
  change (String c s +:+ t) with (String c (s +:+ t)). cbn [lower].
  by rewrite IH.
Qed.

Lemma remove_spaces_cons (c : ascii) (s : string) :
  replace " " "" (String c s)
  = if decide (c = " "%char) then replace " " "" s else String c (replace " " "" s).
Proof.
  unfold replace. cbn [replace_from].
  change (String.prefix " " (String c s))
    with (if Ascii.ascii_dec " " c then String.prefix "" s else false).
  destruct (Ascii.ascii_dec " " c) as [<-|Hc].
  - rewrite decide_True by done. by destruct s.
  - by rewrite decide_False by congruence.
Qed.

Lemma remove_spaces_nil : replace " " "" "" = "".
Proof. done. Qed.

Lemma remove_spaces_app (s t : string) :
  replace " " "" (s +:+ t) = replace " " "" s +:+ replace " " "" t.
Proof.
  induction s as [|c s IH]; [done|].
  change (String c s +:+ t) with (String c (s +:+ t)).
  rewrite !remove_spaces_cons.
  destruct (decide (c = " "%char)); [done|].
  change (String c ?x +:+ ?y) with (String c (x +:+ y)). by rewrite IH.
Qed.

Lemma remove_spaces_idem (s : string) :
  replace " " "" (replace " " "" s) = replace " " "" s.
Proof.
  induction s as [|c s IH]; [done|].
  rewrite remove_spaces_cons. destruct (decide (c = " "%char)) as [|Hc]; [done|].
  by rewrite remove_spaces_cons, decide_False, IH.
Qed.

Lemma lower_remove_spaces (s : string) :
  lower (replace " " "" s) = replace " " "" (lower s).
Proof.
  induction s as [|c s IH]; [done|].
  cbn [lower]. rewrite !remove_spaces_cons.
  destruct (decide (c = " "%char)) as [->|Hc].
  - by rewrite decide_True.
  - rewrite decide_False by by rewrite lower_is_space.
    cbn [lower]. by rewrite IH.
Qed.

Lemma lower_lstrip (s : string) : lower (lstrip s) = lstrip (lower s).
Proof.
  induction s as [|c s IH]; [done|].
  cbn [lower lstrip]. rewrite isspace_lower. by destruct (isspace c).
Qed.

Lemma lower_rstrip (s : string) : lower (rstrip s) = rstrip (lower s).
Proof.
  induction s as [|c s IH]; [done|].
  cbn [lower rstrip]. rewrite <- IH, isspace_lower.
  destruct (rstrip s); [by destruct (isspace c)|done].
Qed.

Lemma lower_strip (s : string) : lower (strip s) = strip (lower s).
Proof. unfold strip. by rewrite lower_rstrip, lower_lstrip. Qed.

Lemma remove_spaces_lstrip (s : string) :
  replace " " "" (lstrip s) = lstrip (replace " " "" s).
Proof.
  induction s as [|c s IH]; [done|].
  cbn [lstrip]. rewrite remove_spaces_cons.
  destruct (decide (c = " "%char)) as [->|Hc]; [done|].
  cbn [lstrip]. destruct (isspace c); [done|].
  by rewrite remove_spaces_cons, decide_False.
Qed.

Lemma rstrip_cons (c : ascii) (s : string) :
  rstrip (String c s)
  = if decide (rstrip s = "") then (if isspace c then "" else String c "")
    else String c (rstrip s).
Proof. cbn [rstrip]. by destruct (rstrip s). Qed.

Lemma rstrip_idem (s : string) : rstrip (rstrip s) = rstrip s.
Proof.
  induction s as [|c s IH]; [done|].
  rewrite rstrip_cons. destruct (decide (rstrip s = "")) as [He|Hne].
  - destruct (isspace c) eqn:Hc; [done|].
    by rewrite rstrip_cons, decide_True, Hc.
  - by rewrite rstrip_cons, IH, decide_False.
Qed.

(** What [rstrip] returns, if not empty, keeps a character once the
    spaces are taken out. *)
Lemma remove_spaces_rstrip_nonempty (s : string) :
  rstrip s ≠ "" → replace " " "" (rstrip s) ≠ "".
Proof.
  induction s as [|c s IH]; [done|].
  rewrite rstrip_cons. destruct (decide (rstrip s = "")) as [He|Hne].
  - destruct (isspace c) eqn:Hc; [done|]. intros _.
    rewrite remove_spaces_cons, decide_False; [done|].
    intros ->. done.
  - intros _. rewrite remove_spaces_cons.
    destruct (decide (c = " "%char)); [by apply IH|done].
Qed.

Lemma remove_spaces_rstrip (s : string) :
  replace " " "" (rstrip s) = rstrip (replace " " "" s).
Proof.
  induction s as [|c s IH]; [done|].
  rewrite rstrip_cons, (remove_spaces_cons c s).
  destruct (decide (rstrip s = "")) as [He|Hne].
  - rewrite He in IH. change (replace " " "" "") with "" in IH.
    destruct (decide (c = " "%char)) as [->|Hc]; [done|].
    rewrite rstrip_cons, <- IH, decide_True by done.
    destruct (isspace c); [done|].
    by rewrite remove_spaces_cons, decide_False.
  - rewrite remove_spaces_cons.
    destruct (decide (c = " "%char)) as [->|Hc]; [done|].
    rewrite rstrip_cons, <- IH, decide_False; [done|].
    by apply remove_spaces_rstrip_nonempty.
Qed.

Lemma remove_spaces_strip (s : string) :
  replace " " "" (strip s) = strip (replace " " "" s).
Proof. unfold strip. by rewrite remove_spaces_rstrip, remove_spaces_lstrip. Qed.

Lemma lstrip_idem (s : string) : lstrip (lstrip s) = lstrip s.
Proof.
  induction s as [|c s IH]; [done|].
  cbn [lstrip]. destruct (isspace c) eqn:Hc; [done|]. cbn [lstrip]. by rewrite Hc.
Qed.

Lemma lstrip_rstrip (s : string) : lstrip (rstrip (lstrip s)) = rstrip (lstrip s).
Proof.
  induction s as [|c s IH]; [done|].
  cbn [lstrip]. destruct (isspace c) eqn:Hc; [done|].
  destruct (rstrip_keeps_head c s Hc) as [t ->]. cbn [lstrip]. by rewrite Hc.
Qed.

Lemma strip_idem (s : string) : strip (strip s) = strip s.
Proof. unfold strip. by rewrite lstrip_rstrip, rstrip_idem. Qed.

Lemma remove_spaces_no_space (s : string) : " "%char ∉ chars (replace " " "" s).
Proof.
  induction s as [|c s IH]; [apply not_elem_of_nil|].
  rewrite remove_spaces_cons. destruct (decide (c = " "%char)) as [|Hc]; [done|].
  cbn [chars]. intros [?|?]%elem_of_cons; [congruence|done].
Qed.

Lemma lstrip_all_space (s : string) :
  Forall (λ c, isspace c = true) (chars s) → lstrip s = "".
Proof.
  induction s as [|c s IH]; [done|].
  cbn [chars lstrip]. intros [Hc Hs]%Forall_cons. rewrite Hc. by apply IH.
Qed.

Lemma chars_lower (s : string) : chars (lower s) = ascii_lower <$> chars s.
Proof. induction s as [|c s IH]; [done|]. cbn [lower chars]. by rewrite IH. Qed.

(** [clean_id] beyond ASCII: [RÄT 7], with U+00C4, gives [rät7], with
    U+00E4. *)
Lemma clean_id_latin_1 :
  clean_id (IdText (String "R" (String "196" "T 7"))) = String "r" (String "228" "t7").
Proof. vm_compute. reflexivity. Qed.

(** X1: on the texts of the model (code points below U+0100, where
    [lower] and [strip] are those of Python) normalizing is idempotent, and
    a normalized key is a fixed point of each of its three steps: it is in
    lower case, has no white space at either end and holds no space. *)
Theorem clean_id_idempotent (val : id_cell) :
  clean_id (IdText (clean_id val)) = clean_id val
  ∧ lower (clean_id val) = clean_id val
  ∧ strip (clean_id val) = clean_id val
  ∧ " "%char ∉ chars (clean_id val).
Proof.
  unfold clean_id. cbn [py_str]. set (x := py_str val).
  assert (Hl : lower (replace " " "" (strip (lower x))) = replace " " "" (strip (lower x))).
  { by rewrite lower_remove_spaces, lower_strip, lower_idem. }
  assert (Hs : strip (replace " " "" (strip (lower x))) = replace " " "" (strip (lower x))).
  { by rewrite <- remove_spaces_strip, strip_idem. }
  split; [|split; [done|split; [done|apply remove_spaces_no_space]]].
  by rewrite Hl, Hs, remove_spaces_idem.
Qed.

(** X2: on the texts of the model (code points below U+0100, where
    [str.lower] works character by character), identifiers that differ by
    a space, anywhere, or by the case of their letters get the same key. *)
Theorem clean_id_ignores_spaces_and_case (s1 s2 : string) :
  clean_id (IdText (s1 +:+ " " +:+ s2)) = clean_id (IdText (s1 +:+ s2))
  ∧ clean_id (IdText (lower s1)) = clean_id (IdText s1)
  ∧ (lower s1 = lower s2 → clean_id (IdText s1) = clean_id (IdText s2)).
Proof.
  unfold clean_id. cbn [py_str]. split; [|split].
  - rewrite !lower_app, !remove_spaces_strip, !remove_spaces_app.
    by change (replace " " "" (lower " ")) with "".
  - by rewrite lower_idem.
  - by intros ->.
Qed.

(** X3: an identifier made only of characters [str.isspace] accepts (below
    U+0100: tab to carriage return, the separators 28 to 31, the space,
    U+0085 and U+00A0), the empty identifier included, normalizes to the
    empty key. *)
Theorem clean_id_of_white_space (s : string) :
  Forall (λ c, isspace c = true) (chars s) → clean_id (IdText s) = "".
Proof.
  intros Hs. unfold clean_id, strip. cbn [py_str].
  rewrite lstrip_all_space; [done|].
  rewrite chars_lower, Forall_fmap. eapply Forall_impl; [exact Hs|].
  intros c Hc. simpl. by rewrite isspace_lower.
Qed.

Lemma clean_id_of_white_space_witness :
  clean_id (IdText (String "009" (String "160" (String "133" " ")))) = "".
Proof.
  apply (clean_id_of_white_space (String "009" (String "160" (String "133" " ")))).
  repeat constructor.
Defined.

(** ** The fill-down *)

Lemma ffill_from_idem (prev : cell) (col : list cell) :
  ffill_from prev (ffill_from prev col) = ffill_from prev col.
Proof.
  revert prev. induction col as [|c col IH]; intros prev; [done|].
  cbn [ffill_from]. destruct (is_missing c) eqn:Hc.
  - destruct (is_missing prev) eqn:Hp; by rewrite IH.
  - by rewrite Hc, IH.
Qed.

Lemma ffill_from_keeps (prev : cell) (col : list cell) (i : nat) (c : cell) :
  col !! i = Some c → is_missing c = false → ffill_from prev col !! i = Some c.
Proof.
  revert prev i. induction col as [|c' col IH]; intros prev [|i]; try done.
  - intros [= ->] Hc. cbn [ffill_from]. by rewrite Hc.
  - intros Hi Hc. cbn [ffill_from]. by apply IH.
Qed.

Lemma ffill_from_blanks (prev : cell) (n : nat) (rest : list cell) :
  ffill_from prev (replicate n Missing ++ rest)
  = replicate n prev ++ ffill_from prev rest.
Proof.
  induction n as [|n IH]; [done|]. cbn [replicate app ffill_from is_missing].
  by rewrite IH.
Qed.

Lemma ffill_from_app_value (prev c : cell) (above below : list cell) :
  is_missing c = false →
  ffill_from prev (above ++ c :: below)
  = ffill_from prev above ++ c :: ffill_from c below.
Proof.
  intros Hc. revert prev. induction above as [|a above IH]; intros prev.
  - cbn [app ffill_from]. by rewrite Hc.
  - cbn [app ffill_from]. by rewrite IH.
Qed.

(** X4: the fill-down keeps the length of a column and every cell that
    holds a value, and filling down twice changes nothing more. *)
Theorem ffill_keeps_values (col : list cell) :
  length (ffill col) = length col
  ∧ (∀ i c, col !! i = Some c → is_missing c = false → ffill col !! i = Some c)
  ∧ ffill (ffill col) = ffill col.
Proof.
  split; [apply length_ffill_from|]. split.
  - intros i c. apply ffill_from_keeps.
  - apply ffill_from_idem.
Qed.

(** X5: the blank cells right below a value take that value, whatever
    stands above and below them. *)
Theorem ffill_copies_from_above (above below : list cell) (c : cell) (n : nat) :
  is_missing c = false →
  ffill (above ++ c :: replicate n Missing ++ below)
  = ffill above ++ c :: replicate n c ++ ffill_from c below.
Proof.
  intros Hc. unfold ffill.
  by rewrite (ffill_from_app_value _ _ _ _ Hc), ffill_from_blanks.
Qed.

Lemma ffill_copies_from_above_witness :
  ffill ([Missing] ++ Num 1 :: replicate 2 Missing ++ [Num 2; Missing])
  = [Missing; Num 1; Num 1; Num 1; Num 2; Num 2].
Proof.
  apply (ffill_copies_from_above [Missing] [Num 2; Missing] (Num 1) 2).
  reflexivity.
Defined.

Lemma ffill_from_missing_iff (col : list cell) (i : nat) (v : cell) :
  ffill_from Missing col !! i = Some v →
  (is_missing v = true ↔ Forall (λ c, is_missing c = true) (take (S i) col)).
Proof.
  revert i. induction col as [|c col IH]; intros i; [done|].
  cbn [ffill_from]. destruct (is_missing c) eqn:Hc.
  - destruct c; try done. destruct i as [|i].
    + intros [= <-]. split; [|done]. intros _. by repeat constructor.
    + cbn [lookup list_lookup take]. intros Hi.
      change (ffill_from Missing col !! i = Some v) in Hi.
      rewrite (IH _ Hi). split; [by constructor|by intros [_ ?]%Forall_cons].
  - destruct i as [|i].
    + intros [= <-]. rewrite Hc. split; [done|].
      intros [Hc' _]%Forall_cons. congruence.
    + intros Hi. change (ffill_from c col !! i = Some v) in Hi.
      split; [|intros [Hc' _]%Forall_cons; congruence].
      intros Hv. exfalso. clear IH. revert c i Hc Hi.
      induction col as [|c' col IH']; intros c i Hc; [done|].
      cbn [ffill_from]. destruct i as [|i].
      * intros [= <-]. destruct (is_missing c') eqn:Hc'; congruence.
      * intros Hi. change (ffill_from (if is_missing c' then c else c') col !! i = Some v) in Hi.
        destruct (is_missing c') eqn:Hc'; eapply IH'; eauto.
Qed.

(** X6: after the fill-down a cell is blank exactly when it and every cell
    above it were blank: only the blanks at the top of a column stay. *)
Theorem ffill_leaves_leading_blanks (col : list cell) (i : nat) (v : cell) :
  ffill col !! i = Some v →
  (is_missing v = true ↔ Forall (λ c, is_missing c = true) (take (S i) col)).
Proof. apply ffill_from_missing_iff. Qed.

Lemma ffill_leaves_leading_blanks_witness :
  is_missing Missing = true
  ↔ Forall (λ c, is_missing c = true) (take 2 [Missing; Missing; Num 1; Missing]).
Proof.
  apply (ffill_leaves_leading_blanks [Missing; Missing; Num 1; Missing] 1 Missing).
  reflexivity.
Defined.

(** ** From the sheet to the targets of a subject *)

Lemma prepare_lookup_values (rs : list sheet_row) (i : nat) (r : sheet_row) (a f : cell) :
  rs !! i = Some r →
  ffill (anat_TR <$> rs) !! i = Some a →
  ffill (func_TR <$> rs) !! i = Some f →
  prepare rs !! i = Some (DfRow (rat_ID r) a f (rat_gender r) (clean_id (rat_ID r))).
Proof.
  intros Hi Ha Hf. unfold prepare, zip_rows.
  apply lookup_zip_with_Some. exists r, (a, f).
  split; [done|]. split; [done|].
  apply lookup_zip_with_Some. by exists a, f.
Qed.

Lemma prepare_keys (rs : list sheet_row) :
  df_clean_id <$> prepare rs = (λ r, clean_id (rat_ID r)) <$> rs.
Proof.
  apply list_eq. intros i. rewrite !list_lookup_fmap.
  destruct (rs !! i) as [r|] eqn:Hi.
  - destruct (prepare_lookup _ _ _ Hi) as (a & f & ->). done.
  - rewrite (lookup_ge_None_2 (prepare rs)); [done|].
    rewrite length_prepare. by apply lookup_ge_None.
Qed.

Lemma matching_rows_none (rs : list sheet_row) (k : string) :
  Forall (λ r, clean_id (rat_ID r) ≠ k) rs → matching_rows (prepare rs) k = [].
Proof.
  intros Hrs. unfold matching_rows.
  assert (Hdf : Forall (λ d, df_clean_id d ≠ k) (prepare rs)).
  { apply (Forall_fmap df_clean_id (λ key, key ≠ k)). rewrite prepare_keys.
    by apply (Forall_fmap (λ r, clean_id (rat_ID r)) (λ key, key ≠ k)). }
  induction Hdf as [|d df Hd _ IH]; [done|]. by rewrite filter_cons_False.
Qed.

Lemma subject_targets_at (rs : list sheet_row) (i : nat) (r : sheet_row) (a f : cell) :
  rs !! i = Some r →
  Forall (λ r', clean_id (rat_ID r') ≠ clean_id (rat_ID r)) (take i rs) →
  ffill (anat_TR <$> rs) !! i = Some a →
  ffill (func_TR <$> rs) !! i = Some f →
  subject_targets (prepare rs) (clean_id (rat_ID r))
  = row_targets (DfRow (rat_ID r) a f (rat_gender r) (clean_id (rat_ID r))).
Proof.
  intros Hi Habove Ha Hf.
  pose proof (prepare_lookup_values _ _ _ _ _ Hi Ha Hf) as Hdf.
  unfold subject_targets.
  rewrite (matching_rows_first (prepare rs) (take i (prepare rs)) (drop (S i) (prepare rs))
             (DfRow (rat_ID r) a f (rat_gender r) (clean_id (rat_ID r)))
             (clean_id (rat_ID r))); [done| | |done].
  - by rewrite take_drop_middle.
  - apply (Forall_fmap df_clean_id (λ key, key ≠ clean_id (rat_ID r))).
    rewrite fmap_take, prepare_keys, <- fmap_take.
    by apply (Forall_fmap (λ r', clean_id (rat_ID r')) (λ key, key ≠ clean_id (rat_ID r))).
Qed.

Lemma ffill_from_lookup_below (prev : cell) (col : list cell) (i : nat) (c : cell) :
  col !! i = Some c → is_missing c = false → col !! S i = Some Missing →
  ffill_from prev col !! S i = Some c.
Proof.
  revert prev i. induction col as [|c0 col IH]; intros prev i; [done|].
  destruct i as [|i].
  - intros [= ->] Hc. destruct col as [|c1 col]; [done|].
    intros [= ->]. cbn [ffill_from is_missing]. by rewrite Hc.
  - intros Hi Hc Hn. cbn [ffill_from].
    change ((ffill_from (if is_missing c0 then prev else c0) col) !! S i = Some c).
    by apply IH.
Qed.

(** X7: the targets of a subject are read from the first row that carries
    its key, with the timing cells as the fill-down left them: two numbers
    give the two targets, a blank gives NaN, a text in either cell gives the
    error branch. *)
Theorem targets_come_from_first_filled_row (rs : list sheet_row) (i : nat)
    (r : sheet_row) (a f : cell) :
  rs !! i = Some r →
  Forall (λ r', clean_id (rat_ID r') ≠ clean_id (rat_ID r)) (take i rs) →
  ffill (anat_TR <$> rs) !! i = Some a →
  ffill (func_TR <$> rs) !! i = Some f →
  subject_targets (prepare rs) (clean_id (rat_ID r))
  = match py_float a, py_float f with
    | Some x, Some y => Targets x y
    | _, _ => BadTR
    end.
Proof. intros Hi Habove Ha Hf. by rewrite (subject_targets_at _ _ _ _ _ Hi Habove Ha Hf). Qed.

Lemma targets_come_from_first_filled_row_witness :
  subject_targets (prepare twice_rows) "rat1" = Targets (float_of 1) (float_of 2).
Proof.
  apply (targets_come_from_first_filled_row twice_rows 0
           (SheetRow (IdText "rat1") (Num 1) (Num 2) None) (Num 1) (Num 2)).
  - reflexivity.
  - constructor.
  - reflexivity.
  - reflexivity.
Defined.

(** X8: a subject whose timing cells are blank, in the row right below a
    row with two numbers, is classified against the numbers of that row
    (lines 45-47: "If Rat6 has empty TRs, copy from Rat7 above it"). *)
Theorem blank_row_copies_row_above (rs : list sheet_row) (i : nat)
    (r1 r2 : sheet_row) (a f : Q) :
  rs !! i = Some r1 → anat_TR r1 = Num a → func_TR r1 = Num f →
  rs !! S i = Some r2 → anat_TR r2 = Missing → func_TR r2 = Missing →
  Forall (λ r', clean_id (rat_ID r') ≠ clean_id (rat_ID r2)) (take (S i) rs) →
  subject_targets (prepare rs) (clean_id (rat_ID r2)) = Targets (float_of a) (float_of f).
Proof.
  intros H1 Ha Hf H2 Ha2 Hf2 Habove.
  rewrite (subject_targets_at rs (S i) r2 (Num a) (Num f)); try done.
  - apply (ffill_from_lookup_below _ _ i); [| done |].
    + by rewrite list_lookup_fmap, H1, <- Ha.
    + by rewrite list_lookup_fmap, H2, <- Ha2.
  - apply (ffill_from_lookup_below _ _ i); [| done |].
    + by rewrite list_lookup_fmap, H1, <- Hf.
    + by rewrite list_lookup_fmap, H2, <- Hf2.
Qed.

Lemma blank_row_copies_row_above_witness :
  subject_targets
    (prepare [SheetRow (IdText "Rat 7") (Num (5 # 2)) (Num 1) None;
              SheetRow (IdText "Rat 6") Missing Missing None])
    "rat6"
  = Targets (float_of (5 # 2)) (float_of 1).
Proof.
  apply (blank_row_copies_row_above
           [SheetRow (IdText "Rat 7") (Num (5 # 2)) (Num 1) None;
            SheetRow (IdText "Rat 6") Missing Missing None]
           0 (SheetRow (IdText "Rat 7") (Num (5 # 2)) (Num 1) None)
           (SheetRow (IdText "Rat 6") Missing Missing None) (5 # 2) 1);
    try reflexivity.
  repeat constructor. vm_compute. intros H. discriminate H.
Defined.

(** ** Subjects that are passed over *)

(** X9: a directory whose normalized name is the key of no row of the
    sheet is passed over with a warning: no file changes, the conversion
    tool is not run, and the loop goes on. *)
Theorem directory_without_row_is_skipped (e : env) (rs : list sheet_row)
    (sub_dir : string) (w : world) :
  Forall (λ r, clean_id (rat_ID r) ≠ clean_id (IdText sub_dir)) rs →
  process_subject e (prepare rs) sub_dir w
  = Done tt (World (files w)
      (trace w ++ [Printed (MsgProcessing sub_dir (clean_id (IdText sub_dir)));
                   Printed (MsgNotInExcel (clean_id (IdText sub_dir)))])).
Proof.
  intros Hrs. unfold process_subject, subject_targets.
  rewrite (matching_rows_none _ _ Hrs).
  unfold emit, mbind, M_bind. simpl. by rewrite <- (assoc_L (++)).
Qed.

Lemma directory_without_row_is_skipped_witness :
  process_subject twice_env (prepare twice_rows) "rat9" rat7_world
  = Done tt (World (files rat7_world)
      [Printed (MsgProcessing "rat9" "rat9"); Printed (MsgNotInExcel "rat9")]).
Proof.
  apply (directory_without_row_is_skipped twice_env twice_rows "rat9" rat7_world).
  repeat constructor; vm_compute; intros H; discriminate H.
Defined.

Lemma ffill_lookup_is_Some (col : list cell) (i : nat) :
  (i < length col)%nat → is_Some (ffill col !! i).
Proof. intros Hi. apply lookup_lt_is_Some_2. unfold ffill. by rewrite length_ffill_from. Qed.

(** X10: when the first row of a subject holds, in one of its timing
    cells, a text [s] that [float()] rejects ([float_of_str s = None]), the
    subject is passed over with the error message of line 90: no file
    changes and the conversion tool is not run. *)
Theorem text_tr_skips_subject (e : env) (rs : list sheet_row) (i : nat)
    (r : sheet_row) (s sub_dir : string) (w : world) :
  rs !! i = Some r →
  Forall (λ r', clean_id (rat_ID r') ≠ clean_id (rat_ID r)) (take i rs) →
  clean_id (rat_ID r) = clean_id (IdText sub_dir) →
  anat_TR r = Text s ∨ func_TR r = Text s →
  float_of_str s = None →
  process_subject e (prepare rs) sub_dir w
  = Done tt (World (files w)
      (trace w ++ [Printed (MsgProcessing sub_dir (clean_id (IdText sub_dir)));
                   Printed (MsgTRError (clean_id (IdText sub_dir)))])).
Proof.
  intros Hi Habove Hkey Htext Hs.
  assert (Hlen : (i < length rs)%nat) by by apply lookup_lt_Some in Hi.
  destruct (ffill_lookup_is_Some (anat_TR <$> rs) i) as [a Ha];
    [by rewrite length_fmap|].
  destruct (ffill_lookup_is_Some (func_TR <$> rs) i) as [f Hf];
    [by rewrite length_fmap|].
  assert (Ht : subject_targets (prepare rs) (clean_id (IdText sub_dir)) = BadTR).
  { rewrite <- Hkey, (subject_targets_at _ _ _ _ _ Hi Habove Ha Hf).
    unfold row_targets. cbn [df_anat_TR df_func_TR].
    destruct Htext as [Hr|Hr].
    - assert (a = Text s) as ->; [|by cbn [py_float]; rewrite Hs].
      pose proof (ffill_from_keeps Missing (anat_TR <$> rs) i (Text s)) as Hk.
      rewrite list_lookup_fmap, Hi in Hk. cbn in Hk. rewrite Hr in Hk.
      specialize (Hk eq_refl eq_refl). unfold ffill in Ha. congruence.
    - assert (f = Text s) as ->;
        [|by cbn [py_float]; rewrite Hs; destruct (py_float a)].
      pose proof (ffill_from_keeps Missing (func_TR <$> rs) i (Text s)) as Hk.
      rewrite list_lookup_fmap, Hi in Hk. cbn in Hk. rewrite Hr in Hk.
      specialize (Hk eq_refl eq_refl). unfold ffill in Hf. congruence. }
  unfold process_subject. rewrite Ht.
  unfold emit, mbind, M_bind. simpl. by rewrite <- (assoc_L (++)).
Qed.

Lemma text_tr_skips_subject_witness :
  float_of_str "2,5" = None
  ∧ process_subject (Env None [] one_series)
      (prepare [SheetRow (IdText "Rat 7") (Num 1) (Text "2,5") None]) "rat7" empty_world
    = Done tt (World ∅
        [Printed (MsgProcessing "rat7" "rat7"); Printed (MsgTRError "rat7")]).
Proof.
  split; [vm_compute; reflexivity|].
  apply (text_tr_skips_subject (Env None [] one_series)
           [SheetRow (IdText "Rat 7") (Num 1) (Text "2,5") None] 0
           (SheetRow (IdText "Rat 7") (Num 1) (Text "2,5") None) "2,5" "rat7"
           empty_world).
  - reflexivity.
  - constructor.
  - reflexivity.
  - right. reflexivity.
  - vm_compute. reflexivity.
Defined.

(** ** The two descriptor files *)

(** X11: once the sheet has been read, dataset_description.json holds the
    fixed description at the end of the run, whatever the subjects on disk
    and whether or not a later step raised. *)
Theorem dataset_description_is_written (e : env) (sh : sheet) (w : world) :
  read_excel e = Some sh → tool_confined e →
  files (world_of (convert_dataset e w)) !! (BIDS_ROOT ++ ["dataset_description.json"])
  = Some (Json desc).
Proof.
  intros He Htool. unfold convert_dataset. rewrite He.
  unfold setup_bids, write_file, emit, modify_files.
  unfold mbind at 1 2 3 4, M_bind at 1 2 3 4. simpl.
  match goal with |- files (world_of (for_each ?b ?l ?w1)) !! ?p = _ =>
    assert (Hl : leaves_alone p (for_each b l)) end.
  { apply leaves_alone_for_each, Forall_forall. intros sub_dir _.
    by apply leaves_alone_process_subject. }
  match goal with |- files (world_of (for_each ?b ?l ?w1)) !! ?p = _ =>
    destruct (Hl w1) as [-> _] end.
  simpl. by rewrite lookup_insert_ne, lookup_insert_eq.
Qed.

Lemma dataset_description_is_written_witness :
  files (world_of (convert_dataset blank_tr_env empty_world))
    !! (BIDS_ROOT ++ ["dataset_description.json"])
  = Some (Json desc).
Proof.
  apply (dataset_description_is_written blank_tr_env (Sheet false blank_tr_rows)
           empty_world).
  - reflexivity.
  - apply one_series_confined.
Defined.

(** X12: participants.tsv lists the rows of the sheet in their order; with
    a gender column every row has the two fields of the header and a blank
    gender is written as n/a, without one every row has the identifier
    alone. *)
Theorem participants_follow_the_sheet (e : env) (sh : sheet) (w : world) :
  read_excel e = Some sh → tool_confined e →
  participants_written e w
  = Some (if has_gender sh
          then Tsv ["participant_id"; "sex"]
                 ((λ r, ["sub-" +:+ clean_id (rat_ID r); default "n/a" (rat_gender r)])
                  <$> sheet_rows sh)
          else Tsv ["participant_id"]
                 ((λ r, ["sub-" +:+ clean_id (rat_ID r)]) <$> sheet_rows sh)).
Proof.
  intros He Htool. rewrite (convert_dataset_participants e sh w He Htool).
  unfold participants. f_equal.
  destruct (has_gender sh); f_equal; apply list_eq; intros i;
    rewrite !list_lookup_fmap;
    (destruct (sheet_rows sh !! i) as [r|] eqn:Hi;
     [ destruct (prepare_lookup _ _ _ Hi) as (a & f & ->); done
     | rewrite (lookup_ge_None_2 (prepare (sheet_rows sh))); [done|];
       rewrite length_prepare; by apply lookup_ge_None ]).
Qed.

Lemma participants_follow_the_sheet_witness :
  participants_written
    (Env (Some (Sheet true [SheetRow (IdText "Rat 7") Missing (Num 1) (Some "F");
                            SheetRow IdMissing (Num 1) (Num 1) None]))
         [] no_output) empty_world
  = Some (Tsv ["participant_id"; "sex"] [["sub-rat7"; "F"]; ["sub-nan"; "n/a"]]).
Proof.
  apply (participants_follow_the_sheet
           (Env (Some (Sheet true [SheetRow (IdText "Rat 7") Missing (Num 1) (Some "F");
                                   SheetRow IdMissing (Num 1) (Num 1) None]))
                [] no_output)
           (Sheet true [SheetRow (IdText "Rat 7") Missing (Num 1) (Some "F");
                        SheetRow IdMissing (Num 1) (Num 1) None])
           empty_world).
  - reflexivity.
  - apply no_output_confined.
Defined.

(** ** What one scan does to the files *)

Lemma nii_gz_ne_json (s : string) : s +:+ ".nii.gz" ≠ s +:+ ".json".
Proof. intros H. apply (inj (String.app s)) in H. discriminate H. Qed.

Lemma func_nii_ne_json (clean_sub_name : string) :
  func_nii clean_sub_name ≠ func_json clean_sub_name.
Proof.
  unfold func_nii, func_json. intros H. apply app_inv_head in H.
  injection H as H. by apply nii_gz_ne_json in H.
Qed.

Lemma anat_nii_ne_json (clean_sub_name : string) :
  anat_nii clean_sub_name ≠ anat_json clean_sub_name.
Proof.
  unfold anat_nii, anat_json. intros H. apply app_inv_head in H.
  injection H as H. by apply nii_gz_ne_json in H.
Qed.

(** X13: the relocation of a classified scan is a move: after it neither
    the sidecar nor the image is left in the scratch directory, and the
    image is at its destination with the content it had, whatever was at
    that destination before. *)
Theorem relocation_moves_the_pair (clean_sub_name sub_dir : string) (a f tr : num)
    (json_file : path) (d : list (string * json)) (c : content) (w : world) :
  is_json_in (temp_out sub_dir) json_file = true →
  files w !! json_file = Some (Json (JObj d)) →
  files w !! nii_of json_file = Some c →
  as_number (default (JNum (float_of (-1))) (dict_get "RepetitionTime" d)) = Some tr →
  classify TR_TOLERANCE tr f a ≠ Unclassified →
  let w' := world_of (process_scan clean_sub_name a f json_file w) in
  files w' !! json_file = None
  ∧ files w' !! nii_of json_file = None
  ∧ files w' !! (if classify TR_TOLERANCE tr f a is Functional
                 then func_nii clean_sub_name else anat_nii clean_sub_name)
    = Some c.
Proof.
  intros Hglob Hj Hn Htr Hv w'.
  pose proof (length_temp_json _ _ Hglob) as Hlen.
  pose proof (temp_json_ne_nii _ _ Hglob) as Hne.
  assert (Hd : ∀ dest_folder name q, (length q ≤ 9)%nat →
            final_dir clean_sub_name dest_folder ++ [name] ≠ q).
  { intros. by apply final_dir_file_ne. }
  assert (Hlen' : (length (nii_of json_file) ≤ 9)%nat) by (rewrite length_nii_of; lia).
  assert (Hlen'' : (length json_file ≤ 9)%nat) by lia.
  assert (Hfunc : func_nii clean_sub_name ≠ json_file
                  ∧ func_nii clean_sub_name ≠ nii_of json_file
                  ∧ func_json clean_sub_name ≠ json_file
                  ∧ func_json clean_sub_name ≠ nii_of json_file)
    by (repeat split; by apply Hd).
  assert (Hanat : anat_nii clean_sub_name ≠ json_file
                  ∧ anat_nii clean_sub_name ≠ nii_of json_file
                  ∧ anat_json clean_sub_name ≠ json_file
                  ∧ anat_json clean_sub_name ≠ nii_of json_file)
    by (repeat split; by apply Hd).
  destruct Hfunc as (F1 & F2 & F3 & F4). destruct Hanat as (A1 & A2 & A3 & A4).
  subst w'.
  rewrite (process_scan_object clean_sub_name a f tr json_file d c w Hj Hn Htr Hne F1 A1).
  destruct (classify TR_TOLERANCE tr f a); [| |done]; simpl.
  - split; [|split].
    + rewrite lookup_insert_ne by done. apply lookup_delete_eq.
    + rewrite lookup_insert_ne, lookup_delete_ne, lookup_insert_ne by done.
      apply lookup_delete_eq.
    + rewrite lookup_insert_ne by (apply not_eq_sym, func_nii_ne_json).
      rewrite lookup_delete_ne by by apply not_eq_sym.
      apply lookup_insert_eq.
  - split; [|split].
    + rewrite lookup_insert_ne by done. apply lookup_delete_eq.
    + rewrite lookup_insert_ne, lookup_delete_ne, lookup_insert_ne by done.
      apply lookup_delete_eq.
    + rewrite lookup_insert_ne by (apply not_eq_sym, anat_nii_ne_json).
      rewrite lookup_delete_ne by by apply not_eq_sym.
      apply lookup_insert_eq.
Qed.

Lemma relocation_moves_the_pair_witness :
  files (world_of (process_scan "rat7" (float_of (5 # 2)) (float_of 1)
                     (rat7_tmp ++ ["b.json"]) rat7_world))
    !! anat_nii "rat7"
  = Some (Blob 2).
Proof.
  apply (relocation_moves_the_pair "rat7" "Rat 7" (float_of (5 # 2)) (float_of 1) (float_of (5 # 2))
           (rat7_tmp ++ ["b.json"]) [("RepetitionTime", JNum (float_of (5 # 2)))]
           (Blob 2) rat7_world).
  - vm_compute. reflexivity.
  - vm_compute. reflexivity.
  - vm_compute. reflexivity.
  - reflexivity.
  - vm_compute. intros H. discriminate H.
Defined.

(** X14: a sidecar whose RepetitionTime is neither a number nor a bool
    makes the subtraction of line 123 raise TypeError once the sidecar has
    been read: no file has changed, the scans after it are not processed
    and the scratch directory is not removed. *)
Theorem non_numeric_tr_raises (clean_sub_name : string) (a f : num) (json_file : path)
    (d : list (string * json)) (rest : list path) (scratch : path) (w : world) :
  files w !! json_file = Some (Json (JObj d)) →
  is_Some (files w !! nii_of json_file) →
  as_number (default (JNum (float_of (-1))) (dict_get "RepetitionTime" d)) = None →
  process_scan clean_sub_name a f json_file w
    = Raised TypeError (World (files w) (trace w ++ [Open json_file "r"]))
  ∧ (for_each (process_scan clean_sub_name a f) (json_file :: rest);;
     shutil_rmtree scratch) w
    = Raised TypeError (World (files w) (trace w ++ [Open json_file "r"])).
Proof.
  intros Hj Hn Htr.
  assert (Hp : process_scan clean_sub_name a f json_file w
               = Raised TypeError (World (files w) (trace w ++ [Open json_file "r"]))).
  { unfold process_scan, path_exists. unfold mbind at 1, M_bind at 1.
    rewrite bool_decide_eq_true_2 by done.
    change (negb true) with false. cbv beta iota.
    unfold mbind at 1, M_bind at 1.
    by rewrite (read_actual_tr_object _ _ _ Hj), Htr. }
  split; [done|].
  cbn [for_each]. unfold mbind, M_bind. by rewrite Hp.
Qed.

Lemma non_numeric_tr_raises_witness :
  process_scan "rat7" (float_of (5 # 2)) (float_of 1) ["s.json"]
    (lone_scan (JObj [("RepetitionTime", JStr "1.0")]))
  = Raised TypeError
      (World (files (lone_scan (JObj [("RepetitionTime", JStr "1.0")])))
         (trace (lone_scan (JObj [("RepetitionTime", JStr "1.0")]))
          ++ [Open ["s.json"] "r"])).
Proof.
  refine (proj1 (non_numeric_tr_raises "rat7" (float_of (5 # 2)) (float_of 1) ["s.json"]
           [("RepetitionTime", JStr "1.0")] [] []
           (lone_scan (JObj [("RepetitionTime", JStr "1.0")])) _ _ _)).
  - vm_compute. reflexivity.
  - exists (Blob 1). vm_compute. reflexivity.
  - reflexivity.
Defined.

Lemma read_actual_tr_unreadable (json_file : path) (c : content) (w : world) :
  files w !! json_file = Some c →
  (∀ d, c ≠ Json (JObj d)) →
  read_actual_tr json_file w
  = Done (JNum (float_of (-1))) (World (files w) (trace w ++ [Open json_file "r"])).
Proof.
  intros Hj Hc. unfold read_actual_tr, try_except, open_read, read_file, emit,
    mbind, M_bind. simpl. rewrite Hj.
  destruct c as [[]| |]; try done. by destruct (Hc d).
Qed.

(** X15: a sidecar that is not a JSON object (a text json.load rejects, or
    a JSON value without [get]) is given the value -1 by the [except] of
    line 116; with positive targets the scan is then Unclassified: the
    sidecar is opened once and nothing is changed or moved. *)
Theorem unreadable_sidecar_is_unclassified (clean_sub_name : string) (f an : num)
    (json_file : path) (c : content) (w : world) :
  num_lt (float_of 0) f = true → num_lt (float_of 0) an = true →
  files w !! json_file = Some c →
  (∀ d, c ≠ Json (JObj d)) →
  is_Some (files w !! nii_of json_file) →
  process_scan clean_sub_name an f json_file w
  = Done tt (World (files w) (trace w ++ [Open json_file "r"])).
Proof.
  intros Hf Ha Hj Hc Hn.
  unfold process_scan, path_exists. unfold mbind at 1, M_bind at 1.
  rewrite bool_decide_eq_true_2 by done.
  change (negb true) with false. cbv beta iota.
  unfold mbind at 1, M_bind at 1.
  rewrite (read_actual_tr_unreadable _ _ _ Hj Hc). cbn [as_number].
  by rewrite absent_tr_outside_windows.
Qed.

Lemma unreadable_sidecar_is_unclassified_witness :
  process_scan "rat7" (float_of (5 # 2)) (float_of 1) ["s.json"] (lone_scan (JArr []))
  = Done tt (World (files (lone_scan (JArr [])))
               (trace (lone_scan (JArr [])) ++ [Open ["s.json"] "r"])).
Proof.
  apply (unreadable_sidecar_is_unclassified "rat7" (float_of 1) (float_of (5 # 2))
           ["s.json"] (Json (JArr []))
           (lone_scan (JArr []))).
  - reflexivity.
  - reflexivity.
  - vm_compute. reflexivity.
  - intros d H. discriminate H.
  - exists (Blob 1). vm_compute. reflexivity.
Defined.

(** ** The scratch directory *)

Lemma bind_Done_inv {A B} (m : M A) (k : A → M B) (w w' : world) (b : B) :
  (m ≫= k) w = Done b w' → ∃ a w1, m w = Done a w1 ∧ k a w1 = Done b w'.
Proof.
  unfold mbind, M_bind. destruct (m w) as [a w1|]; [|done]. by exists a, w1.
Qed.

(** X16: when the processing of a subject completes, nothing is left
    below its scratch directory: what was classified has been moved out and
    the rest has been removed with the directory. *)
Theorem scratch_is_removed (e : env) (sub_dir clean_sub_name : string) (a f : num)
    (w w' : world) (p : path) :
  convert_subject e sub_dir clean_sub_name a f w = Done tt w' →
  temp_out sub_dir `prefix_of` p →
  files w' !! p = None.
Proof.
  intros Hrun Hp. unfold convert_subject in Hrun.
  apply bind_Done_inv in Hrun as (_ & w1 & _ & Hrun).
  apply bind_Done_inv in Hrun as (_ & w2 & _ & Hrun).
  apply bind_Done_inv in Hrun as (json_files & w3 & _ & Hrun).
  apply bind_Done_inv in Hrun as (_ & w4 & _ & Hrun).
  apply bind_Done_inv in Hrun as (_ & w5 & _ & Hrun).
  pose proof (shutil_rmtree_removes (temp_out sub_dir) p w5 Hp) as Hrm.
  by rewrite Hrun in Hrm.
Qed.

Lemma scratch_is_removed_witness :
  files (world_of (convert_subject blank_tr_env "rat1" "rat1" NaN NaN empty_world))
    !! (temp_out "rat1" ++ ["3_T2.json"])
  = None.
Proof.
  apply (scratch_is_removed blank_tr_env "rat1" "rat1" NaN NaN empty_world
           (world_of (convert_subject blank_tr_env "rat1" "rat1" NaN NaN empty_world))
           (temp_out "rat1" ++ ["3_T2.json"])).
  - vm_compute. reflexivity.
  - by exists ["3_T2.json"].
Defined.




(** ** Targets that are not numbers *)

Lemma read_actual_tr_files (json_file : path) (w : world) :
  ∃ tr, read_actual_tr json_file w
        = Done tr (World (files w) (trace w ++ [Open json_file "r"])).
Proof.
  unfold read_actual_tr, try_except, open_read, read_file, emit, mbind, M_bind.
  simpl. destruct (files w !! json_file) as [[[]| |]|]; simpl; by eexists.
Qed.

Lemma classify_NaN_targets (tol tr : num) : classify tol tr NaN NaN = Unclassified.
Proof. unfold classify. by rewrite !within_NaN_target. Qed.

Lemma process_scan_found (clean_sub_name : string) (a f : num) (json_file : path)
    (tr : json) (w w1 : world) :
  is_Some (files w !! nii_of json_file) →
  read_actual_tr json_file w = Done tr w1 →
  process_scan clean_sub_name a f json_file w
  = match as_number tr with
    | None => Raised TypeError w1
    | Some actual_tr =>
        match classify TR_TOLERANCE actual_tr f a with
        | Functional =>
            (add_task_name json_file;;
             relocate clean_sub_name "func" (bold_name clean_sub_name)
               (nii_of json_file) json_file) w1
        | Anatomical =>
            relocate clean_sub_name "anat" (T2w_name clean_sub_name)
              (nii_of json_file) json_file w1
        | Unclassified => Done tt w1
        end
    end.
Proof.
  intros Hn Hr. unfold process_scan, path_exists. unfold mbind at 1, M_bind at 1.
  rewrite bool_decide_eq_true_2 by done.
  change (negb true) with false. cbv beta iota.
  unfold mbind at 1, M_bind at 1. rewrite Hr.
  destruct (as_number tr) as [x|]; [|done]. by destruct (classify _ _ _ _).
Qed.

Lemma process_scan_NaN_cases (clean_sub_name : string) (json_file : path) (w : world) :
  process_scan clean_sub_name NaN NaN json_file w = Done tt w
  ∨ process_scan clean_sub_name NaN NaN json_file w
    = Done tt (World (files w) (trace w ++ [Open json_file "r"]))
  ∨ process_scan clean_sub_name NaN NaN json_file w
    = Raised TypeError (World (files w) (trace w ++ [Open json_file "r"])).
Proof.
  destruct (files w !! nii_of json_file) as [c|] eqn:Hn.
  - right. destruct (read_actual_tr_files json_file w) as [tr Hr].
    rewrite (process_scan_found _ _ _ _ _ _ _ (mk_is_Some _ _ Hn) Hr).
    destruct (as_number tr) as [x|]; [rewrite classify_NaN_targets; by left|by right].
  - left. by apply process_scan_orphan.
Qed.

Lemma process_scan_NaN_files (clean_sub_name : string) (json_file : path) (w : world) :
  files (world_of (process_scan clean_sub_name NaN NaN json_file w)) = files w
  ∧ ∃ new, trace (world_of (process_scan clean_sub_name NaN NaN json_file w))
           = trace w ++ new
           ∧ Forall (λ ev, ev = Open json_file "r") new.
Proof.
  destruct (process_scan_NaN_cases clean_sub_name json_file w) as [->|[->| ->]]; simpl.
  - split; [done|]. exists []. by rewrite app_nil_r.
  - split; [done|]. exists [Open json_file "r"]. split; [done|by constructor].
  - split; [done|]. exists [Open json_file "r"]. split; [done|by constructor].
Qed.

(** X18: when both targets of a subject are NaN (blank timing cells with
    nothing above them), its scans match nothing: over the whole loop of the
    subject no file is changed, and the loop does nothing but open
    sidecars for reading. *)
Theorem nan_targets_relocate_nothing (clean_sub_name : string) (json_files : list path)
    (w : world) :
  let w' := world_of (for_each (process_scan clean_sub_name NaN NaN) json_files w) in
  files w' = files w
  ∧ ∃ new, trace w' = trace w ++ new
           ∧ Forall (λ ev, ∃ j, j ∈ json_files ∧ ev = Open j "r") new.
Proof.
  revert w. induction json_files as [|j js IH]; intros w; simpl.
  { split; [done|]. exists []. by rewrite app_nil_r. }
  unfold mbind, M_bind.
  destruct (process_scan_NaN_files clean_sub_name j w) as (Hf & new & Ht & Hnew).
  destruct (process_scan clean_sub_name NaN NaN j w) as [[] w1|ex w1]; simpl in *.
  - destruct (IH w1) as (Hf1 & new1 & Ht1 & Hnew1). split; [congruence|].
    exists (new ++ new1). rewrite Ht1, Ht, (assoc_L (++)). split; [done|].
    apply Forall_app. split.
    + eapply Forall_impl; [exact Hnew|]. intros ev ->. exists j. split; [|done].
      apply list_elem_of_here.
    + eapply Forall_impl; [exact Hnew1|]. intros ev (j' & Hj' & ->). exists j'.
      split; [|done]. by apply list_elem_of_further.
  - split; [done|]. exists new. split; [done|].
    eapply Forall_impl; [exact Hnew|]. intros ev ->. exists j. split; [|done].
    apply list_elem_of_here.
Qed.

(** ** Files a scan and a run leave alone *)

Lemma leaves_alone_relocate_exact (p : path) (clean_sub_name dest_folder new_name : string)
    (nii_file json_file : path) :
  nii_file ≠ p → json_file ≠ p →
  final_dir clean_sub_name dest_folder ++ [new_name +:+ ".nii.gz"] ≠ p →
  final_dir clean_sub_name dest_folder ++ [new_name +:+ ".json"] ≠ p →
  leaves_alone p (relocate clean_sub_name dest_folder new_name nii_file json_file).
Proof.
  intros Hn Hj Hd1 Hd2. unfold relocate.
  apply leaves_alone_bind; [by apply leaves_alone_emit|intros _].
  apply leaves_alone_bind; [by apply leaves_alone_shutil_move|intros _].
  apply leaves_alone_bind; [by apply leaves_alone_shutil_move|intros _].
  by apply leaves_alone_emit.
Qed.

(** X19: a scan touches at most six paths: its sidecar, its image and the
    two pairs of destinations of its subject.  Every other file holds after
    the scan what it held before, whether the scan completes or raises, and
    no event of the scan opens or moves it. *)
Theorem scan_touches_only_its_files (clean_sub_name : string) (a f : num)
    (json_file p : path) :
  json_file ≠ p → nii_of json_file ≠ p →
  func_nii clean_sub_name ≠ p → func_json clean_sub_name ≠ p →
  anat_nii clean_sub_name ≠ p → anat_json clean_sub_name ≠ p →
  leaves_alone p (process_scan clean_sub_name a f json_file).
Proof.
  intros Hj Hn Hfn Hfj Han Haj. unfold process_scan.
  apply leaves_alone_bind; [apply leaves_alone_path_exists|intros found].
  destruct found; simpl; [|apply leaves_alone_ret].
  apply leaves_alone_bind; [by apply leaves_alone_read_actual_tr|intros tr].
  destruct (as_number tr) as [actual_tr|]; [|apply (leaves_alone_raise p (A:=unit))].
  destruct (classify _ _ _ _).
  - apply leaves_alone_bind; [by apply leaves_alone_add_task_name|intros _].
    by apply leaves_alone_relocate_exact.
  - by apply leaves_alone_relocate_exact.
  - apply leaves_alone_ret.
Qed.

Lemma scan_touches_only_its_files_witness :
  leaves_alone (rat7_tmp ++ ["b.json"])
    (process_scan "rat7" (float_of (5 # 2)) (float_of 1) (rat7_tmp ++ ["a.json"])).
Proof.
  apply (scan_touches_only_its_files "rat7" (float_of (5 # 2)) (float_of 1)
           (rat7_tmp ++ ["a.json"]) (rat7_tmp ++ ["b.json"]));
    vm_compute; intros H; discriminate H.
Defined.

Lemma nii_of_temp_json (sub_dir name : string) :
  nii_of (temp_out sub_dir ++ [name])
  = temp_out (replace ".json" ".nii.gz" sub_dir) ++ [replace ".json" ".nii.gz" name].
Proof. reflexivity. Qed.

Section outside.
Context (e : env) (p : path).
Hypothesis tool : tool_confined e.
Hypothesis not_output : ¬ BIDS_ROOT `prefix_of` p.
Hypothesis not_scratch : ∀ sub_dir, ¬ temp_out sub_dir `prefix_of` p.

Lemma final_dir_file_outside (clean_sub_name dest_folder name : string) :
  final_dir clean_sub_name dest_folder ++ [name] ≠ p.
Proof using not_output.
  clear tool not_scratch. intros <-. apply not_output. unfold final_dir. rewrite <- (assoc_L (++)).
  by eexists.
Qed.

Lemma outside_convert_subject (sub_dir clean_sub_name : string) (a f : num) :
  leaves_alone p (convert_subject e sub_dir clean_sub_name a f).
Proof using tool not_output not_scratch.
  unfold convert_subject.
  apply leaves_alone_bind; [by apply leaves_alone_emit|intros _].
  apply leaves_alone_bind; [|intros _].
  { apply leaves_alone_bind; [by apply leaves_alone_emit|intros _].
    apply leaves_alone_modify_files. intros fs. apply tool, not_scratch. }
  apply (leaves_alone_bind_post p _ _ _ (glob_json_lists _));
    [apply leaves_alone_glob_json|intros json_files Hjs].
  apply leaves_alone_bind; [|intros _].
  { case_bool_decide; [by apply leaves_alone_emit|apply leaves_alone_ret]. }
  apply leaves_alone_bind; [|intros _].
  - apply leaves_alone_for_each. eapply Forall_impl; [exact Hjs|].
    intros j (name & -> & _)%is_json_in_inv.
    apply leaves_alone_process_scan.
    + intros <-. apply (not_scratch sub_dir). by eexists.
    + rewrite nii_of_temp_json. intros <-.
      apply (not_scratch (replace ".json" ".nii.gz" sub_dir)). by eexists.
    + apply final_dir_file_outside.
  - apply leaves_alone_shutil_rmtree, not_scratch.
Qed.

Lemma outside_process_subject (df : list df_row) (sub_dir : string) :
  leaves_alone p (process_subject e df sub_dir).
Proof using tool not_output not_scratch.
  unfold process_subject.
  apply leaves_alone_bind; [by apply leaves_alone_emit|intros _].
  destruct (subject_targets _ _); try by apply leaves_alone_emit.
  apply leaves_alone_bind; [by apply leaves_alone_emit|intros _].
  apply outside_convert_subject.
Qed.

(** Lines 57-153, once the workbook has been read. *)
Lemma outside_conversion :
  leaves_alone p
    (match read_excel e with
     | None => emit (Printed MsgExcelError)
     | Some sh =>
         let df := prepare (sheet_rows sh) in
         setup_bids;;
         write_file (BIDS_ROOT ++ ["participants.tsv"]) (participants (has_gender sh) df);;
         for_each (process_subject e df) (subject_dirs (listdir e))
     end).
Proof using tool not_output not_scratch.
  assert (Hout : ∀ name, BIDS_ROOT ++ [name] ≠ p).
  { intros name <-. apply not_output. by eexists. }
  destruct (read_excel e) as [sh|]; [|by apply leaves_alone_emit].
  apply leaves_alone_bind; [|intros _].
  { apply leaves_alone_bind; [by apply leaves_alone_emit|intros _].
    by apply leaves_alone_write_file. }
  apply leaves_alone_bind; [by apply leaves_alone_write_file|intros _].
  apply leaves_alone_for_each, Forall_forall. intros sub_dir _.
  apply outside_process_subject.
Qed.

Lemma outside_main : p ≠ EXCEL_PATH → leaves_alone p (main e).
Proof using tool not_output not_scratch.
  intros Hp.
  unfold main. apply leaves_alone_bind; [|intros _; by apply leaves_alone_emit].
  unfold convert_dataset.
  apply leaves_alone_bind; [|intros _; apply outside_conversion].
  apply leaves_alone_emit. cbn [touches]. by apply bool_decide_eq_false_2.
Qed.

Lemma outside_main_files (w : world) : files (world_of (main e w)) !! p = files w !! p.
Proof using tool not_output not_scratch.
  pose proof (outside_conversion (World (files w) (trace w ++ [Open EXCEL_PATH "rb"])))
    as [Hf _].
  cbn [files] in Hf. rewrite <- Hf.
  unfold main, convert_dataset, emit. unfold mbind, M_bind.
  set (rest := match read_excel e with None => _ | Some sh => _ end).
  by destruct (rest _).
Qed.
End outside.

(** X20: a run leaves the raw data alone.  A file that lies neither below
    the output root nor below the temp_bids directory of a subject holds
    at the end of the run what it held at the start; and unless it is the
    workbook, which the run opens for reading, the script itself neither
    opens nor moves nor removes it (the conversion tool reads its input
    directory on its own).  This is so provided the conversion tool writes
    below its output directory only. *)
Theorem raw_data_is_left_alone (e : env) (p : path) :
  tool_confined e →
  ¬ BIDS_ROOT `prefix_of` p →
  (∀ sub_dir, ¬ temp_out sub_dir `prefix_of` p) →
  (∀ w, files (world_of (main e w)) !! p = files w !! p)
  ∧ (p ≠ EXCEL_PATH → leaves_alone p (main e)).
Proof.
  intros. split; [intros w; by apply outside_main_files|intros; by apply outside_main].
Qed.

Lemma raw_data_is_left_alone_witness :
  leaves_alone (DATA_ROOT ++ ["rat1"; "3"; "fid"]) (main blank_tr_env)
  ∧ files (world_of (main blank_tr_env empty_world)) !! EXCEL_PATH
    = files empty_world !! EXCEL_PATH.
Proof.
  split.
  - refine (proj2 (raw_data_is_left_alone blank_tr_env
                     (DATA_ROOT ++ ["rat1"; "3"; "fid"]) _ _ _) _).
    + apply one_series_confined.
    + intros [k Hk]. vm_compute in Hk. discriminate Hk.
    + intros sub_dir [k Hk]. vm_compute in Hk. discriminate Hk.
    + intros H. vm_compute in H. discriminate H.
  - refine (proj1 (raw_data_is_left_alone blank_tr_env EXCEL_PATH _ _ _) empty_world).
    + apply one_series_confined.
    + intros [k Hk]. vm_compute in Hk. discriminate Hk.
    + intros sub_dir [k Hk]. vm_compute in Hk. discriminate Hk.
Defined.

Lemma temp_json_ne_nii_gen (dir q : path) :
  is_json_in dir q = true → q ≠ nii_of q.
Proof. intros Hq Heq. by apply (nii_of_not_json _ _ _ _ Hq Hq). Qed.

(** X21: the name line 108 computes for the image never ends in .json,
    whatever the name of the sidecar ([replace] rewrites every occurrence,
    not the extension alone); so the image of a listed sidecar is never
    itself listed, and differs from the sidecar. *)
Theorem image_name_is_no_sidecar_name (name : string) (dir dir' q : path) :
  endswith ".json" (replace ".json" ".nii.gz" name) = false
  ∧ (is_json_in dir q = true →
     is_json_in dir' (nii_of q) = false ∧ nii_of q ≠ q).
Proof.
  split; [apply endswith_replace_json|]. intros Hq. split.
  - destruct (is_json_in dir' (nii_of q)) eqn:Hn; [|done].
    by destruct (nii_of_not_json _ _ _ _ Hn Hq).
  - by apply not_eq_sym, (temp_json_ne_nii_gen dir).
Qed.

(** ** Two scans of one kind *)

(** X22: when two sidecars of a subject are both Functional, the second
    one processed overwrites the first at the destination: after the loop
    the functional image and sidecar are those of the second scan (the last
    conversion wins). *)
Theorem last_functional_scan_wins (clean_sub_name sub_dir : string) (a f tr1 tr2 : num)
    (j1 j2 : path) (d1 d2 : list (string * json)) (c1 c2 : content) (w : world) :
  is_json_in (temp_out sub_dir) j1 = true →
  is_json_in (temp_out sub_dir) j2 = true →
  j1 ≠ j2 → nii_of j1 ≠ nii_of j2 →
  files w !! j1 = Some (Json (JObj d1)) → files w !! nii_of j1 = Some c1 →
  as_number (default (JNum (float_of (-1))) (dict_get "RepetitionTime" d1)) = Some tr1 →
  classify TR_TOLERANCE tr1 f a = Functional →
  files w !! j2 = Some (Json (JObj d2)) → files w !! nii_of j2 = Some c2 →
  as_number (default (JNum (float_of (-1))) (dict_get "RepetitionTime" d2)) = Some tr2 →
  classify TR_TOLERANCE tr2 f a = Functional →
  let w' := world_of (for_each (process_scan clean_sub_name a f) [j1; j2] w) in
  files w' !! func_nii clean_sub_name = Some c2
  ∧ files w' !! func_json clean_sub_name = Some (Json (JObj (augment d2))).
Proof.
  intros Hg1 Hg2 Hne Hnii Hj1 Hn1 Htr1 Hv1 Hj2 Hn2 Htr2 Hv2 w'.
  pose proof (length_temp_json _ _ Hg1) as Hlen1.
  pose proof (length_temp_json _ _ Hg2) as Hlen2.
  assert (Hd : ∀ dest_folder name q, (length q ≤ 9)%nat →
            final_dir clean_sub_name dest_folder ++ [name] ≠ q).
  { intros. by apply final_dir_file_ne. }
  assert (Hl2 : (length (nii_of j2) ≤ 9)%nat) by (rewrite length_nii_of; lia).
  assert (Hk2 : (length j2 ≤ 9)%nat) by lia.
  assert (Hk1 : (length j1 ≤ 9)%nat) by lia.
  (* the first scan leaves the second pair in place *)
  destruct (leaves_alone_process_scan j2 clean_sub_name a f j1) with (w := w)
    as [Hkeep_j _]; [done|by apply (nii_of_not_json _ _ _ _ Hg2 Hg1)|by intros; apply Hd|].
  destruct (leaves_alone_process_scan (nii_of j2) clean_sub_name a f j1) with (w := w)
    as [Hkeep_n _];
    [intros Heq; by apply (nii_of_not_json _ _ _ _ Hg1 Hg2)|done|by intros; apply Hd|].
  subst w'. cbn [for_each]. unfold mbind, M_bind.
  rewrite (process_scan_object clean_sub_name a f tr1 j1 d1 c1 w Hj1 Hn1 Htr1
             (temp_json_ne_nii _ _ Hg1) (Hd _ _ _ Hk1) (Hd _ _ _ Hk1)) in *.
  rewrite Hv1 in *. cbn [world_of] in Hkeep_j, Hkeep_n.
  rewrite Hj2 in Hkeep_j. rewrite Hn2 in Hkeep_n.
  rewrite (process_scan_object clean_sub_name a f tr2 j2 d2 c2 _ Hkeep_j Hkeep_n Htr2
             (temp_json_ne_nii _ _ Hg2) (Hd _ _ _ Hk2) (Hd _ _ _ Hk2)).
  rewrite Hv2. simpl. split.
  - rewrite lookup_insert_ne by (apply not_eq_sym, func_nii_ne_json).
    rewrite lookup_delete_ne by (apply not_eq_sym; by apply Hd).
    apply lookup_insert_eq.
  - apply lookup_insert_eq.
Qed.

Lemma last_functional_scan_wins_witness :
  files (world_of (for_each (process_scan "rat7" (float_of (5 # 2)) (float_of 1))
                     [rat7_tmp ++ ["a.json"]; rat7_tmp ++ ["b.json"]] two_bold_world))
    !! func_nii "rat7"
  = Some (Blob 2).
Proof.
  refine (proj1 (last_functional_scan_wins "rat7" "Rat 7" (float_of (5 # 2)) (float_of 1)
           (float_of 1) (float_of 1) (rat7_tmp ++ ["a.json"]) (rat7_tmp ++ ["b.json"])
           [("RepetitionTime", JNum (float_of 1))]
           [("RepetitionTime", JNum (float_of 1)); ("SeriesNumber", JNum (float_of 2))]
           (Blob 1) (Blob 2) two_bold_world _ _ _ _ _ _ _ _ _ _ _ _));
    try (vm_compute; reflexivity); vm_compute; intros H; discriminate H.
Defined.

(** ** Directory names *)

(** X23: line 68 tests the prefix on the lower-cased name as it stands,
    before any stripping: a directory whose name starts with white space is
    never processed, whatever its normalized name, and neither is an entry
    that is not a directory. *)
Theorem padded_directory_is_ignored (entries : list (string * bool)) (c : ascii)
    (s d : string) :
  (isspace c = true → String c s ∉ subject_dirs entries)
  ∧ (d ∈ subject_dirs entries → (d, true) ∈ entries ∧ startswith "rat" (lower d) = true).
Proof.
  split.
  - intros Hc Hin. apply subject_dirs_rat in Hin.
    unfold startswith in Hin. cbn [lower] in Hin.
    change (String.prefix "rat" (String (ascii_lower c) (lower s)))
      with (if Ascii.ascii_dec "r" (ascii_lower c)
            then String.prefix "at" (lower s) else false) in Hin.
    destruct (Ascii.ascii_dec "r" (ascii_lower c)) as [Hr|]; [|done].
    rewrite <- isspace_lower, <- Hr in Hc. done.
  - unfold subject_dirs. intros ([d' b] & -> & Hin)%list_elem_of_fmap.
    apply list_elem_of_filter in Hin as [[Hb Hrat] Hin]. cbn in *. by subst b.
Qed.
